(** * DashieAI market-research pipeline: a shallow embedding of [app.py]

    The development follows the methods of [MarketResearchAgent]:
    [determine_industry], [research_company], [generate_use_cases],
    [collect_resource_assets] and [generate_final_proposal], and the four
    phases that [main] chains.

    Conventions of the model.
    - A Python [str] is a [string] of 8-bit characters; the primitives of
      [str] and [re] below are the ASCII fragment of the Python ones
      (characters above 127 are neither spaces, digits nor letters).
    - A Python [dict] is an association list in insertion order with
      distinct keys ([PyDict]).
    - The two network collaborators (the Exa search client and the autogen
      assistant) and the system clock are transition functions over an
      abstract [World]; every call made to them is recorded in a trace.
    - A Python exception is a value of [exn]; a method returns [Ok v] or
      [Raise e] in the state monad [M]. *)

From Stdlib Require Import String Ascii List Arith Lia Bool DecimalString.
Import ListNotations.
Local Open Scope list_scope.
Local Open Scope string_scope.

(** ** Python [str] primitives *)

Module PyStr.

Definition nl : string := String "010"%char EmptyString.
Definition dquote : string := String "034"%char EmptyString.

Definition code (c : ascii) : nat := nat_of_ascii c.

Definition in_range (lo hi : nat) (c : ascii) : bool :=
  ((lo <=? code c)%nat && (code c <=? hi)%nat)%bool.

(** [str.isspace] on ASCII: TAB..CR, FS..US and the blank. *)
Definition is_space (c : ascii) : bool :=
  in_range 9 13 c || in_range 28 32 c.

(** [\d] on ASCII. *)
Definition is_digit (c : ascii) : bool := in_range 48 57 c.

Definition is_upper (c : ascii) : bool := in_range 65 90 c.
Definition is_lower (c : ascii) : bool := in_range 97 122 c.

Definition to_lower (c : ascii) : ascii :=
  if is_upper c then ascii_of_nat (code c + 32) else c.
Definition to_upper (c : ascii) : ascii :=
  if is_lower c then ascii_of_nat (code c - 32) else c.

(** [s.lower()] *)
Fixpoint lower (s : string) : string :=
  match s with
  | EmptyString => EmptyString
  | String c s' => String (to_lower c) (lower s')
  end.

(** [s.title()]: CPython walks the string with a flag telling whether the
    previous character was cased. *)
Fixpoint title_from (previous_is_cased : bool) (s : string) : string :=
  match s with
  | EmptyString => EmptyString
  | String c s' =>
      if is_lower c then
        String (if previous_is_cased then c else to_upper c) (title_from true s')
      else if is_upper c then
        String (if previous_is_cased then to_lower c else c) (title_from true s')
      else String c (title_from false s')
  end.

Definition title (s : string) : string := title_from false s.

(** [s.strip()] *)
Fixpoint lstrip (s : string) : string :=
  match s with
  | EmptyString => EmptyString
  | String c s' => if is_space c then lstrip s' else s
  end.

Fixpoint rstrip (s : string) : string :=
  match s with
  | EmptyString => EmptyString
  | String c s' =>
      match rstrip s' with
      | EmptyString => if is_space c then EmptyString else String c EmptyString
      | r => String c r
      end
  end.

Definition strip (s : string) : string := rstrip (lstrip s).

(** Truth value of a [str]: non-empty. *)
Definition truthy (s : string) : bool :=
  match s with EmptyString => false | _ => true end.

(** [p in s] for two strings. *)
Fixpoint str_in (p s : string) : bool :=
  String.prefix p s ||
  match s with
  | EmptyString => false
  | String _ s' => str_in p s'
  end.

(** [str(n)] for a non-negative [int]. *)
Definition str_of_nat (n : nat) : string :=
  NilEmpty.string_of_uint (Nat.to_uint n).

(** [n] rendered on at least two digits, as [%d] of [strftime] does. *)
Definition two_digits (n : nat) : string :=
  if (n <? 10)%nat then "0" ++ str_of_nat n else str_of_nat n.

(** *** [re.split(r'\d+\.', s)]

    [after_digit s] is the backtracking match of the rest of [\d+\.]
    once one digit has been consumed: the greedy repeat first tries one
    more digit and, when the continuation fails, falls back to the
    literal period.  The result is the number of characters matched. *)
Definition match_dot (s : string) : option nat :=
  match s with
  | String c _ => if Ascii.eqb c "."%char then Some 1 else None
  | EmptyString => None
  end.

Fixpoint after_digit (s : string) : option nat :=
  match s with
  | String c s' =>
      if is_digit c then
        match after_digit s' with
        | Some n => Some (S n)
        | None => match_dot s
        end
      else match_dot s
  | EmptyString => None
  end.

(** Length of the match of [\d+\.] anchored at the head of [s]. *)
Definition match_marker (s : string) : option nat :=
  match s with
  | String c s' =>
      if is_digit c then option_map S (after_digit s') else None
  | EmptyString => None
  end.

(** The scan of [re.split]: [skip] characters of the current match are
    still to be dropped, [cur] is the segment being collected. *)
Fixpoint split_scan (s : string) (skip : nat) (cur : string) : list string :=
  match s with
  | EmptyString => [cur]
  | String c s' =>
      match skip with
      | S k => split_scan s' k cur
      | O =>
          match match_marker s with
          | Some (S k) => cur :: split_scan s' k EmptyString
          | _ => split_scan s' 0 (cur ++ String c EmptyString)
          end
      end
  end.

Definition re_split_marker (s : string) : list string :=
  split_scan s 0 EmptyString.

End PyStr.

Import PyStr.

(** ** Python values: exceptions, results, dictionaries *)

(** An exception raised by a collaborator carries the text [str(e)]
    gives; a failed subscript raises [KeyError]. *)
Inductive exn : Type :=
| CollaboratorError (text : string)
| KeyError (key : string)
| TypeError (text : string).

Definition str_of_exn (e : exn) : string :=
  match e with
  | CollaboratorError text => text
  | KeyError key => "'" ++ key ++ "'"
  | TypeError text => text
  end.

Inductive outcome (A : Type) : Type :=
| Ok (a : A)
| Raise (e : exn).

Arguments Ok {A} a.
Arguments Raise {A} e.

(** A [dict] with [str] keys, in insertion order. *)
Definition PyDict (V : Type) : Type := list (string * V).

Fixpoint dict_get {V : Type} (k : string) (d : PyDict V) : option V :=
  match d with
  | [] => None
  | (k', v) :: d' => if String.eqb k' k then Some v else dict_get k d'
  end.

(** [k in d] *)
Definition dict_in {V : Type} (k : string) (d : PyDict V) : bool :=
  match dict_get k d with Some _ => true | None => false end.

(** [d[k] = v]: an existing key keeps its place, a new one goes last. *)
Fixpoint dict_set {V : Type} (k : string) (v : V) (d : PyDict V) : PyDict V :=
  match d with
  | [] => [(k, v)]
  | (k', v') :: d' =>
      if String.eqb k' k then (k', v) :: d' else (k', v') :: dict_set k v d'
  end.

(** [d.get(k, default)] *)
Definition dict_get_default {V : Type} (k : string) (default : V) (d : PyDict V) : V :=
  match dict_get k d with Some v => v | None => default end.

Definition dict_keys {V : Type} (d : PyDict V) : list string := map fst d.

(** ** The collaborators *)

(** One result of [exa.search]: the attributes the program reads, taken
    to be strings, and the publication date the service may supply. *)
Record SearchHit : Type := {
  hit_title : string;
  hit_url : string;
  hit_summary : string;
  hit_published_date : option string
}.

(** What [assistant.generate_reply] returns: a [str], [None], or another
    object known by its [str()] rendering. *)
Inductive reply : Type :=
| ReplyStr (text : string)
| ReplyNone
| ReplyObject (rendering : string).

(** [str(r)] *)
Definition str_of_reply (r : reply) : string :=
  match r with
  | ReplyStr text => text
  | ReplyNone => "None"
  | ReplyObject rendering => rendering
  end.

Inductive Month : Type :=
| January | February | March | April | May | June
| July | August | September | October | November | December.

Record datetime : Type := {
  year : nat;
  month : Month;
  day : nat;
  hour : nat;
  minute : nat;
  second : nat
}.

(** [%B] *)
Definition month_name (m : Month) : string :=
  match m with
  | January => "January" | February => "February" | March => "March"
  | April => "April" | May => "May" | June => "June"
  | July => "July" | August => "August" | September => "September"
  | October => "October" | November => "November" | December => "December"
  end.

(** [d.strftime('%B %d, %Y')], for years of four digits. *)
Definition strftime_B_d_Y (d : datetime) : string :=
  month_name (month d) ++ " " ++ two_digits (day d) ++ ", " ++ str_of_nat (year d).

(** The outside of the program: the search service, the language model
    and the clock, each a transition of the world. *)
Class Collaborators : Type := {
  World : Type;
  exa_search : string -> nat -> option string -> World -> outcome (list SearchHit) * World;
  assistant_generate_reply : string -> string -> World -> outcome reply * World;
  datetime_now : World -> datetime * World
}.

(** ** Program state and the monad of the methods *)

Record SearchCall : Type := {
  sc_query : string;
  sc_num_results : nat;
  sc_type : option string;
  sc_outcome : outcome (list SearchHit)
}.

Record ReplyCall : Type := {
  rc_agent : string;
  rc_content : string;
  rc_outcome : outcome reply
}.

(** What the program shows through [st.error], [st.warning],
    [st.sidebar.success] and [st.markdown]; the other widgets (progress
    bar, placeholders, metrics, tabs, expanders, captions, download
    button) are not recorded. *)
Inductive UiEvent : Type :=
| StError (body : string)
| StWarning (body : string)
| StSidebarSuccess (body : string)
| StMarkdown (body : string).

Section Pipeline.

Context {collab : Collaborators}.

Record State : Type := {
  world : World;
  searches : list SearchCall;
  replies : list ReplyCall;
  ui : list UiEvent;
  files : PyDict string
}.

Definition M (A : Type) : Type := State -> outcome A * State.

Definition ret {A : Type} (a : A) : M A := fun st => (Ok a, st).

Definition raise {A : Type} (e : exn) : M A := fun st => (Raise e, st).

Definition bind {A B : Type} (m : M A) (k : A -> M B) : M B :=
  fun st =>
    match m st with
    | (Ok a, st') => k a st'
    | (Raise e, st') => (Raise e, st')
    end.

(** [try: body except Exception as e: handler(e)] *)
Definition try_except {A : Type} (body : M A) (handler : exn -> M A) : M A :=
  fun st =>
    match body st with
    | (Ok a, st') => (Ok a, st')
    | (Raise e, st') => handler e st'
    end.

(** A [for] loop carrying the variables it assigns. *)
Fixpoint for_each {A B : Type} (xs : list A) (body : A -> B -> M B) (acc : B) : M B :=
  match xs with
  | [] => ret acc
  | x :: xs' => bind (body x acc) (for_each xs' body)
  end.

(** [self.exa.search(query, num_results=n, type=t)] *)
Definition search (query : string) (n : nat) (t : option string) : M (list SearchHit) :=
  fun st =>
    let (o, w) := exa_search query n t (world st) in
    (o, {| world := w;
           searches := (searches st ++ [{| sc_query := query; sc_num_results := n;
                                            sc_type := t; sc_outcome := o |}])%list;
           replies := replies st; ui := ui st; files := files st |}).

(** [AssistantAgent(agent, ...).generate_reply(messages=[{"content": content, "role": "user"}])] *)
Definition generate_reply (agent content : string) : M reply :=
  fun st =>
    let (o, w) := assistant_generate_reply agent content (world st) in
    (o, {| world := w; searches := searches st;
           replies := (replies st ++ [{| rc_agent := agent; rc_content := content;
                                          rc_outcome := o |}])%list;
           ui := ui st; files := files st |}).

(** [datetime.now()] *)
Definition now : M datetime :=
  fun st =>
    let (d, w) := datetime_now (world st) in
    (Ok d, {| world := w; searches := searches st; replies := replies st;
              ui := ui st; files := files st |}).

Definition show (ev : UiEvent) : M unit :=
  fun st =>
    (Ok tt, {| world := world st; searches := searches st; replies := replies st;
               ui := (ui st ++ [ev])%list; files := files st |}).

(** [with open(name, "w") as file: file.write(text)] *)
Definition write_file (name text : string) : M unit :=
  fun st =>
    (Ok tt, {| world := world st; searches := searches st; replies := replies st;
               ui := ui st; files := dict_set name text (files st) |}).

(** [d[k]] *)
Definition dict_item {V : Type} (k : string) (d : PyDict V) : M V :=
  match dict_get k d with
  | Some v => ret v
  | None => raise (KeyError k)
  end.

End Pipeline.

Declare Scope pipeline_scope.
Delimit Scope pipeline_scope with pipeline.
Notation "x <- m ;; k" := (bind m (fun x => k))
  (at level 61, m at next level, right associativity) : pipeline_scope.
Notation "m ;;; k" := (bind m (fun _ => k))
  (at level 61, right associativity) : pipeline_scope.
Local Open Scope pipeline_scope.

(** ** [json.dumps] on the research map

    Default settings: [ensure_ascii=True], separators [", "] and [": "]. *)

Definition hex_digit (n : nat) : ascii :=
  match String.get n "0123456789abcdef" with
  | Some c => c
  | None => "0"%char
  end.

Definition json_escape_char (c : ascii) : string :=
  let n := code c in
  if (n =? 34)%nat then "\" ++ dquote
  else if (n =? 92)%nat then "\\"
  else if (n =? 10)%nat then "\n"
  else if (n =? 13)%nat then "\r"
  else if (n =? 9)%nat then "\t"
  else if (n =? 8)%nat then "\b"
  else if (n =? 12)%nat then "\f"
  else if in_range 32 126 c then String c EmptyString
  else "\u00" ++ String (hex_digit (n / 16)) (String (hex_digit (n mod 16)) EmptyString).

Fixpoint json_escape (s : string) : string :=
  match s with
  | EmptyString => EmptyString
  | String c s' => json_escape_char c ++ json_escape s'
  end.

Definition json_str (s : string) : string := dquote ++ json_escape s ++ dquote.

(** [", ".join(items)] *)
Fixpoint join_comma (items : list string) : string :=
  match items with
  | [] => EmptyString
  | [x] => x
  | x :: rest => x ++ ", " ++ join_comma rest
  end.

Definition json_dict {V : Type} (value : V -> string) (d : PyDict V) : string :=
  "{" ++ join_comma (map (fun kv => json_str (fst kv) ++ ": " ++ value (snd kv)) d) ++ "}".

Definition json_list {V : Type} (value : V -> string) (l : list V) : string :=
  "[" ++ join_comma (map value l) ++ "]".

Definition json_dumps (research_insights : PyDict (list (PyDict string))) : string :=
  json_dict (json_list (json_dict json_str)) research_insights.

(** ** The methods of [MarketResearchAgent] *)

Definition indent : string := "        ".

Definition industry_prompt (company_name : string) : string :=
  nl ++ indent ++ "Analyze the company " ++ company_name
     ++ " and determine its primary industry." ++ nl
     ++ indent ++ "Return only the industry name without any explanation or additional text." ++ nl
     ++ indent ++ "Example response format: " ++ dquote ++ "Electric Vehicles" ++ dquote
     ++ " or " ++ dquote ++ "Cloud Computing" ++ dquote ++ nl
     ++ indent.

Definition use_case_prompt (company_name industry : string)
    (research_insights : PyDict (list (PyDict string))) : string :=
  nl ++ indent ++ "Based on the analysis of " ++ company_name ++ " in the " ++ industry
     ++ " industry, generate innovative AI/ML use cases." ++ nl
     ++ indent ++ "Research insights: " ++ json_dumps research_insights ++ nl
     ++ indent ++ "Focus on:" ++ nl
     ++ indent ++ "- Operational efficiency" ++ nl
     ++ indent ++ "- Customer experience enhancement" ++ nl
     ++ indent ++ "- Technological innovation" ++ nl
     ++ indent ++ "Give at least 5 detailed distinct use cases." ++ nl
     ++ indent ++ "Avoid giving code or implementation details." ++ nl
     ++ indent ++ "Provide specific, actionable recommendations." ++ nl
     ++ indent.

(** The three query templates of [research_company]. *)
Definition search_queries (company_name industry : string) : list string :=
  [ industry ++ " industry overview and trends";
    company_name ++ " strategic focus and market position";
    industry ++ " technological innovations and future outlook" ].

(** [{"title": res.title, "url": res.url, "snippet": res.summary}] *)
Definition insight_of (res : SearchHit) : PyDict string :=
  [("title", hit_title res); ("url", hit_url res); ("snippet", hit_summary res)].

Definition platforms : list string :=
  ["kaggle.com/datasets"; "huggingface.co/datasets"; "github.com/datasets"].

(** [f'"{use_case}" dataset site:{platform}'] *)
Definition resource_query (use_case platform : string) : string :=
  dquote ++ use_case ++ dquote ++ " dataset site:" ++ platform.

(** [platform in res.url and any(keyword in res.url.lower() for keyword in ['dataset', 'data'])] *)
Definition keeps (platform : string) (res : SearchHit) : bool :=
  str_in platform (hit_url res)
  && existsb (fun keyword => str_in keyword (lower (hit_url res))) ["dataset"; "data"].

(** [{"url": res.url, "title": res.title}] *)
Definition resource_of (res : SearchHit) : PyDict string :=
  [("url", hit_url res); ("title", hit_title res)].

Definition platform_resources (platform : string) (results : list SearchHit)
  : list (PyDict string) :=
  map resource_of (filter (keeps platform) results).

(** [[case.strip() for case in re.split(r'\d+\.', text) if case.strip()]] *)
Definition parse_use_cases (text : string) : list string :=
  map strip (filter (fun case => truthy (strip case)) (re_split_marker text)).

(** The style sheet [main] writes first, lines 145-158. *)
Definition page_style : string :=
  "<style>" ++ nl
  ++ "        .stApp { background-color: #111121; }" ++ nl
  ++ "        .main { padding: 2rem; }" ++ nl
  ++ "        .st-emotion-cache-16idsys p { font-size: 1.1rem; }" ++ nl
  ++ "        .stButton > button {" ++ nl
  ++ "            background-color: #9933FF;" ++ nl
  ++ "            color: white;" ++ nl
  ++ "            border: none;" ++ nl
  ++ "        }" ++ nl
  ++ "        .stButton > button:hover {" ++ nl
  ++ "            background-color: #7F00FF;" ++ nl
  ++ "            color: white;" ++ nl
  ++ "        }" ++ nl
  ++ "    </style>".

Section Methods.

Context {collab : Collaborators}.

Definition determine_industry (company_name : string) : M string :=
  industry <- generate_reply "industry_analyzer" (industry_prompt company_name) ;;
  ret (strip (str_of_reply industry)).

(** The body of the loop of [research_company]: one query, the map so
    far. *)
Definition research_query (query : string)
    (research_results : PyDict (list (PyDict string)))
  : M (PyDict (list (PyDict string))) :=
  try_except
    (results <- search query 3 (Some "neural") ;;
     ret (dict_set query (map insight_of results) research_results))
    (fun e =>
       show (StError ("Research error for query '" ++ query ++ "': "
                      ++ str_of_exn e)) ;;;
       ret research_results).

Definition research_company (company_name : string)
  : M (PyDict (list (PyDict string)) * string) :=
  industry <- determine_industry company_name ;;
  research_results <-
    for_each (search_queries company_name industry) research_query [] ;;
  ret (research_results, industry).

Definition generate_use_cases (company_name industry : string)
    (research_insights : PyDict (list (PyDict string))) : M (list string) :=
  use_cases <- generate_reply "use_case_generator"
                 (use_case_prompt company_name industry research_insights) ;;
  ret (parse_use_cases (str_of_reply use_cases)).

(** The body of the inner loop of [collect_resource_assets]: one
    platform, the resources of the use case so far. *)
Definition collect_platform (use_case platform : string)
    (resources : list (PyDict string)) : M (list (PyDict string)) :=
  try_except
    (results <- search (resource_query use_case platform) 3 None ;;
     ret (resources ++ platform_resources platform results)%list)
    (fun e =>
       show (StWarning ("Resource collection error for '" ++ use_case
                        ++ "': " ++ str_of_exn e)) ;;;
       ret resources).

(** The body of the outer loop: one use case, the map so far. *)
Definition collect_use_case (use_case : string)
    (resource_map : PyDict (list (PyDict string)))
  : M (PyDict (list (PyDict string))) :=
  resources <- for_each platforms (collect_platform use_case) [] ;;
  ret (dict_set use_case (firstn 3 resources) resource_map).

Definition collect_resource_assets (use_cases : list string)
  : M (PyDict (list (PyDict string))) :=
  for_each use_cases collect_use_case [].

(** [f" ({insight.get('published_date', 'N/A')})"
     if 'published_date' in insight
        and insight.get('published_date', 'N/A') != 'N/A' else ""] *)
Definition date_str (insight : PyDict string) : string :=
  if dict_in "published_date" insight
     && negb (String.eqb (dict_get_default "published_date" "N/A" insight) "N/A")
  then " (" ++ dict_get_default "published_date" "N/A" insight ++ ")"
  else EmptyString.

Definition generate_final_proposal (company_name industry : string)
    (use_cases : list string)
    (resource_map : PyDict (list (PyDict string)))
    (research_insights : PyDict (list (PyDict string))) : M string :=
  let proposal := "# AI Strategy Analysis for " ++ company_name ++ nl ++ nl in
  let proposal := proposal ++ "## Industry: " ++ industry ++ nl ++ nl in
  today <- now ;;
  let proposal := proposal ++ "*Generated on " ++ strftime_B_d_Y today ++ "*" ++ nl ++ nl in
  let proposal := proposal ++ "## Market Research Insights" ++ nl in
  proposal <-
    for_each research_insights
      (fun item proposal =>
         let query := fst item in
         let proposal := proposal ++ "### " ++ title query ++ nl ++ nl in
         for_each (snd item)
           (fun insight proposal =>
              insight_title <- dict_item "title" insight ;;
              let proposal :=
                proposal ++ "#### " ++ insight_title ++ date_str insight ++ nl ++ nl in
              insight_snippet <- dict_item "snippet" insight ;;
              let proposal := proposal ++ insight_snippet ++ nl ++ nl in
              insight_url <- dict_item "url" insight ;;
              let proposal := proposal ++ "[Read more](" ++ insight_url ++ ")" ++ nl ++ nl in
              ret (proposal ++ "---" ++ nl ++ nl))
           proposal)
      proposal ;;
  let proposal := proposal ++ "## Recommended AI/ML Use Cases" ++ nl ++ nl in
  for_each (combine (seq 1 (length use_cases)) use_cases)
    (fun numbered proposal =>
       let idx := fst numbered in
       let use_case := snd numbered in
       let proposal :=
         proposal ++ "### Use Case " ++ str_of_nat idx ++ ": " ++ use_case ++ nl ++ nl in
       proposal <-
         match dict_get use_case resource_map with
         | Some ((_ :: _) as resources) =>
             let proposal := proposal ++ "#### Recommended Datasets:" ++ nl in
             for_each resources
               (fun resource proposal =>
                  resource_title <- dict_item "title" resource ;;
                  resource_url <- dict_item "url" resource ;;
                  ret (proposal ++ "- [" ++ resource_title ++ "](" ++ resource_url ++ ")" ++ nl))
               proposal
         | Some [] | None => ret proposal
         end ;;
       ret (proposal ++ nl))
    proposal.

(** The body of [if st.button("Generate Analysis", type="primary"):] in
    [main], lines 181-271, for an agent that exists: the four phases,
    the result header, the four tabs, the report file and the download
    button, whose file name reads the clock once more. *)
Definition main_generate_analysis (company_name : string) : M unit :=
  if truthy company_name then
    research <- research_company company_name ;;
    let research_insights := fst research in
    let industry := snd research in
    show (StSidebarSuccess ("Industry Identified: " ++ industry)) ;;;
    use_cases <- generate_use_cases company_name industry research_insights ;;
    resource_map <- collect_resource_assets use_cases ;;
    final_proposal <-
      generate_final_proposal company_name industry use_cases resource_map
        research_insights ;;
    show (StMarkdown "---") ;;;
    show (StMarkdown ("## Analysis Results for " ++ company_name)) ;;;
    show (StMarkdown ("**Industry:** " ++ industry)) ;;;
    for_each research_insights
      (fun item _ =>
         for_each (snd item)
           (fun insight _ =>
              insight_title <- dict_item "title" insight ;;
              insight_url <- dict_item "url" insight ;;
              show (StMarkdown ("[Read full article](" ++ insight_url ++ ")")))
           tt ;;;
         show (StMarkdown "---"))
      tt ;;;
    for_each (combine (seq 1 (length use_cases)) use_cases)
      (fun numbered _ =>
         show (StMarkdown ("### Opportunity " ++ str_of_nat (fst numbered))) ;;;
         show (StMarkdown (snd numbered)))
      tt ;;;
    for_each resource_map
      (fun item _ =>
         for_each (snd item)
           (fun resource _ =>
              resource_title <- dict_item "title" resource ;;
              resource_url <- dict_item "url" resource ;;
              show (StMarkdown ("- [" ++ resource_title ++ "](" ++ resource_url ++ ")")))
           tt)
      tt ;;;
    show (StMarkdown final_proposal) ;;;
    write_file "ai_strategy_proposal.md" final_proposal ;;;
    today <- now ;;
    ret tt
  else
    show (StWarning "Please enter a company name to begin the analysis.").

(** The construction of a [MarketResearchAgent] with keyword arguments:
    [__init__(self)] takes no argument, so Python raises [TypeError] for
    the first keyword it is given. *)
Definition market_research_agent_init (kwargs : list string) : M unit :=
  match kwargs with
  | [] => ret tt
  | keyword :: _ =>
      raise (TypeError ("MarketResearchAgent.__init__() got an unexpected keyword argument '"
                        ++ keyword ++ "'"))
  end.

(** [main] down to the construction of the agent, line 169; [rest] is
    what lines 171-275 would do with the agent. *)
Definition main (rest : M unit) : M unit :=
  show (StMarkdown page_style) ;;;
  show (StMarkdown "*AI-Powered Company Analysis Engine*") ;;;
  market_research_agent_init ["api_key"] ;;;
  rest.

End Methods.

(** ** A scripted outside world

    The collaborators answer from scripts, whatever they are asked: each
    search takes the next entry of [search_script], each model call the
    next entry of [reply_script]; an exhausted script is an outage.  The
    clock stands still. *)

Record Script : Type := {
  search_script : list (outcome (list SearchHit));
  reply_script : list (outcome reply);
  clock : datetime
}.

Definition outage : exn := CollaboratorError "service unavailable".

Definition scripted : Collaborators := {|
  World := Script;
  exa_search := fun _ _ _ w =>
    match search_script w with
    | o :: rest =>
        (o, {| search_script := rest; reply_script := reply_script w; clock := clock w |})
    | [] => (Raise outage, w)
    end;
  assistant_generate_reply := fun _ _ w =>
    match reply_script w with
    | o :: rest =>
        (o, {| search_script := search_script w; reply_script := rest; clock := clock w |})
    | [] => (Raise outage, w)
    end;
  datetime_now := fun w => (clock w, w)
|}.

(** A world where nothing answers. *)
Definition offline : Collaborators := {|
  World := unit;
  exa_search := fun _ _ _ w => (Raise outage, w);
  assistant_generate_reply := fun _ _ w => (Raise outage, w);
  datetime_now := fun w =>
    ({| year := 2026; month := November; day := 3; hour := 0; minute := 0; second := 0 |}, w)
|}.

Definition initial {collab : Collaborators} (w : World) : State :=
  {| world := w; searches := []; replies := []; ui := []; files := [] |}.

Definition scripted_state (s : list (outcome (list SearchHit)))
    (r : list (outcome reply)) (d : datetime) : @State scripted :=
  @initial scripted {| search_script := s; reply_script := r; clock := d |}.

Definition nov_3_2026 : datetime :=
  {| year := 2026; month := November; day := 3; hour := 9; minute := 30; second := 0 |}.

Definition nov_4_2026 : datetime :=
  {| year := 2026; month := November; day := 4; hour := 9; minute := 30; second := 0 |}.

Definition nov_3_2026_evening : datetime :=
  {| year := 2026; month := November; day := 3; hour := 23; minute := 59; second := 59 |}.

Definition hit (t u s : string) (d : option string) : SearchHit :=
  {| hit_title := t; hit_url := u; hit_summary := s; hit_published_date := d |}.

(** ** Vocabulary of the statements *)

(** [p] occurs in [s]. *)
Definition Contains (p s : string) : Prop :=
  exists pre post, s = pre ++ p ++ post.

Fixpoint all_digits (s : string) : bool :=
  match s with
  | EmptyString => true
  | String c s' => is_digit c && all_digits s'
  end.

(** A numbered-list marker: a decimal number followed by a period. *)
Definition is_marker (m : string) : Prop :=
  exists ds, ds <> EmptyString /\ all_digits ds = true /\ m = ds ++ ".".

Definition has_marker (s : string) : Prop :=
  exists pre m post, is_marker m /\ s = pre ++ m ++ post.

Definition ends_with_digit (s : string) : Prop :=
  exists pre c, is_digit c = true /\ s = pre ++ String c EmptyString.

(** [Segments s segs]: [s] reads as the pieces [segs] with one marker
    between two neighbours; a piece holds no marker and, when a marker
    follows, does not end in a digit (the digit would belong to the
    marker). *)
Inductive Segments : string -> list string -> Prop :=
| Segments_last (seg : string) :
    ~ has_marker seg -> Segments seg [seg]
| Segments_more (seg m rest : string) (segs : list string) :
    ~ has_marker seg -> ~ ends_with_digit seg -> is_marker m ->
    Segments rest segs ->
    Segments (seg ++ m ++ rest) (seg :: segs).

(** A segment that survives the filter of [parse_use_cases]. *)
Definition nonblank (seg : string) : bool := truthy (strip seg).

Definition failed {A : Type} (o : outcome A) : bool :=
  match o with Ok _ => false | Raise _ => true end.

Fixpoint last_char (s : string) : option ascii :=
  match s with
  | EmptyString => None
  | String c EmptyString => Some c
  | String _ s' => last_char s'
  end.

(** A decidable test for markers, to settle concrete strings. *)
Fixpoint find_marker (s : string) : bool :=
  match match_marker s with
  | Some _ => true
  | None => match s with
            | EmptyString => false
            | String _ s' => find_marker s'
            end
  end.

Definition neural_call (query : string) (o : outcome (list SearchHit)) : SearchCall :=
  {| sc_query := query; sc_num_results := 3; sc_type := Some "neural"; sc_outcome := o |}.

Definition plain_call (query : string) (o : outcome (list SearchHit)) : SearchCall :=
  {| sc_query := query; sc_num_results := 3; sc_type := None; sc_outcome := o |}.

(** The entry a research query leaves in the map, and the message it
    leaves on screen. *)
Definition research_entry (query : string) (o : outcome (list SearchHit))
  : PyDict (list (PyDict string)) :=
  match o with
  | Ok results => [(query, map insight_of results)]
  | Raise _ => []
  end.

Definition research_message (query : string) (o : outcome (list SearchHit))
  : list UiEvent :=
  match o with
  | Ok _ => []
  | Raise e => [StError ("Research error for query '" ++ query ++ "': " ++ str_of_exn e)]
  end.

(** What one platform search contributes to the resources of a use case,
    and the message it leaves on screen. *)
Definition yield (platform : string) (o : outcome (list SearchHit))
  : list (PyDict string) :=
  match o with
  | Ok results => platform_resources platform results
  | Raise _ => []
  end.

Definition resource_message (use_case : string) (o : outcome (list SearchHit))
  : list UiEvent :=
  match o with
  | Ok _ => []
  | Raise e =>
      [StWarning ("Resource collection error for '" ++ use_case ++ "': " ++ str_of_exn e)]
  end.

(** The searches of one use case, in platform order, with their outcomes,
    and the resources they accumulate. *)
Definition resource_calls (use_case : string) (os : list (outcome (list SearchHit)))
  : list SearchCall :=
  map (fun po => plain_call (resource_query use_case (fst po)) (snd po))
      (combine platforms os).

Definition accumulated (os : list (outcome (list SearchHit))) : list (PyDict string) :=
  flat_map (fun po => yield (fst po) (snd po)) (combine platforms os).

(** The map the research loop builds from queries and their outcomes, the
    calls it makes and the messages it shows. *)
Definition research_map (qos : list (string * outcome (list SearchHit)))
    (research_results : PyDict (list (PyDict string)))
  : PyDict (list (PyDict string)) :=
  fold_left
    (fun m qo =>
       match snd qo with
       | Ok results => dict_set (fst qo) (map insight_of results) m
       | Raise _ => m
       end)
    qos research_results.

Definition research_calls (queries : list string) (os : list (outcome (list SearchHit)))
  : list SearchCall :=
  map (fun qo => neural_call (fst qo) (snd qo)) (combine queries os).

Definition research_messages (queries : list string)
    (os : list (outcome (list SearchHit))) : list UiEvent :=
  flat_map (fun qo => research_message (fst qo) (snd qo)) (combine queries os).

Definition resource_messages (use_case : string)
    (os : list (outcome (list SearchHit))) : list UiEvent :=
  flat_map (resource_message use_case) os.

Section Threads.

Context {collab : Collaborators}.

(** The outcomes of a run of searches from world [w], and the world they
    leave. *)
Fixpoint run_searches (queries : list string) (n : nat) (t : option string)
    (w : World) : list (outcome (list SearchHit)) * World :=
  match queries with
  | [] => ([], w)
  | q :: qs =>
      let (o, w1) := exa_search q n t w in
      let (os, w2) := run_searches qs n t w1 in
      (o :: os, w2)
  end.

(** The state after a run of searches that showed [events]. *)
Definition after_searches (calls : list SearchCall) (events : list UiEvent)
    (w : World) (st : State) : State :=
  {| world := w; searches := (searches st ++ calls)%list; replies := replies st;
     ui := (ui st ++ events)%list; files := files st |}.

(** The outcomes of the three searches made for [use_case] from [w]. *)
Definition platform_outcomes (use_case : string) (w : World)
  : list (outcome (list SearchHit)) :=
  fst (run_searches (map (resource_query use_case) platforms) 3 None w).

(** The outcomes of the three research searches made from [w]. *)
Definition research_outcomes (company_name industry : string) (w : World)
  : list (outcome (list SearchHit)) :=
  fst (run_searches (search_queries company_name industry) 3 (Some "neural") w).

(** A computation that neither reads nor changes the state. *)
Definition stateless {A : Type} (m : M A) : Prop :=
  exists r, forall st, m st = (r, st).

(** The state once the clock has been read. *)
Definition after_clock (st : State) : State :=
  {| world := snd (datetime_now (world st)); searches := searches st;
     replies := replies st; ui := ui st; files := files st |}.


End Threads.

(** [Selected P l l']: [l'] holds the elements of [l] that satisfy [P], in
    the order of [l]. *)
Inductive Selected {A : Type} (P : A -> Prop) : list A -> list A -> Prop :=
| Selected_nil : Selected P [] []
| Selected_keep (x : A) (l l' : list A) :
    P x -> Selected P l l' -> Selected P (x :: l) (x :: l')
| Selected_skip (x : A) (l l' : list A) :
    ~ P x -> Selected P l l' -> Selected P (x :: l) l'.

(** A result the collector keeps for [platform]: its URL contains the
    platform text and, lower-cased, "dataset" or "data". *)
Definition Kept (platform : string) (res : SearchHit) : Prop :=
  Contains platform (hit_url res) /\
  (Contains "dataset" (lower (hit_url res)) \/ Contains "data" (lower (hit_url res))).

(** The results one platform search contributes: the kept ones of a
    search that returned, none of a search that raised. *)
Definition Contribution (platform : string) (o : outcome (list SearchHit))
    (hits : list SearchHit) : Prop :=
  match o with
  | Ok results => Selected (Kept platform) results hits
  | Raise _ => hits = []
  end.

(** ** Vocabulary of the further properties *)

Fixpoint all_space (s : string) : bool :=
  match s with
  | EmptyString => true
  | String c s' => is_space c && all_space s'
  end.

(** Every character is printable ASCII, from the blank to the tilde. *)
Fixpoint printable (s : string) : bool :=
  match s with
  | EmptyString => true
  | String c s' => in_range 32 126 c && printable s'
  end.

(** [''.join(parts)] *)
Fixpoint join (parts : list string) : string :=
  match parts with
  | [] => EmptyString
  | part :: rest => part ++ join rest
  end.

(** The keys [generate_final_proposal] subscripts in an insight and in a
    resource. *)
Definition insight_ok (insight : PyDict string) : bool :=
  dict_in "title" insight && dict_in "snippet" insight && dict_in "url" insight.

Definition resource_ok (resource : PyDict string) : bool :=
  dict_in "title" resource && dict_in "url" resource.

Definition insights_ok (research_insights : PyDict (list (PyDict string))) : bool :=
  forallb (fun item => forallb insight_ok (snd item)) research_insights.

(** The resources the report lists for [use_case] have their keys. *)
Definition listing_ok (resource_map : PyDict (list (PyDict string)))
    (use_case : string) : bool :=
  match dict_get use_case resource_map with
  | Some resources => forallb resource_ok resources
  | None => true
  end.

Definition renderable (use_cases : list string)
    (resource_map research_insights : PyDict (list (PyDict string))) : bool :=
  insights_ok research_insights && forallb (listing_ok resource_map) use_cases.

(** The keys whose absence can stop the report. *)
Definition insight_keys (k : string) : Prop := In k ["title"; "snippet"; "url"].

(** The blocks of the report. *)
Definition render_insight (insight : PyDict string) : string :=
  "#### " ++ dict_get_default "title" EmptyString insight ++ date_str insight ++ nl ++ nl
  ++ dict_get_default "snippet" EmptyString insight ++ nl ++ nl
  ++ "[Read more](" ++ dict_get_default "url" EmptyString insight ++ ")" ++ nl ++ nl
  ++ "---" ++ nl ++ nl.

Definition render_query (item : string * list (PyDict string)) : string :=
  "### " ++ title (fst item) ++ nl ++ nl ++ join (map render_insight (snd item)).

Definition render_resource (resource : PyDict string) : string :=
  "- [" ++ dict_get_default "title" EmptyString resource ++ "]("
  ++ dict_get_default "url" EmptyString resource ++ ")" ++ nl.

Definition render_datasets (resource_map : PyDict (list (PyDict string)))
    (use_case : string) : string :=
  match dict_get use_case resource_map with
  | Some ((_ :: _) as resources) =>
      "#### Recommended Datasets:" ++ nl ++ join (map render_resource resources)
  | Some [] | None => EmptyString
  end.

Definition render_use_case (resource_map : PyDict (list (PyDict string)))
    (numbered : nat * string) : string :=
  "### Use Case " ++ str_of_nat (fst numbered) ++ ": " ++ snd numbered ++ nl ++ nl
  ++ render_datasets resource_map (snd numbered) ++ nl.

Definition layout (generated_on company_name industry : string)
    (use_cases : list string)
    (resource_map research_insights : PyDict (list (PyDict string))) : string :=
  "# AI Strategy Analysis for " ++ company_name ++ nl ++ nl
  ++ "## Industry: " ++ industry ++ nl ++ nl
  ++ "*Generated on " ++ generated_on ++ "*" ++ nl ++ nl
  ++ "## Market Research Insights" ++ nl
  ++ join (map render_query research_insights)
  ++ "## Recommended AI/ML Use Cases" ++ nl ++ nl
  ++ join (map (render_use_case resource_map)
             (combine (seq 1 (length use_cases)) use_cases)).

(** The texts of a list in the order of their first occurrence. *)
Fixpoint first_occurrences (l : list string) : list string :=
  match l with
  | [] => []
  | x :: xs => x :: filter (fun y => negb (String.eqb x y)) (first_occurrences xs)
  end.

(** The three figures [main] shows after a run:
    [len(research_insights)], [len(use_cases)] and
    [sum(len(resources) for resources in resource_map.values())]. *)
Definition metric_research_sources (research_insights : PyDict (list (PyDict string)))
  : nat := length research_insights.

Definition metric_strategic_opportunities (use_cases : list string) : nat :=
  length use_cases.

Definition metric_supporting_resources (resource_map : PyDict (list (PyDict string)))
  : nat := list_sum (map (fun kv => length (snd kv)) resource_map).

Definition is_warning (ev : UiEvent) : bool :=
  match ev with StWarning _ => true | _ => false end.

(** The queries the collector makes for a list of use cases, in order. *)
Definition resource_queries (use_cases : list string) : list string :=
  flat_map (fun use_case => map (resource_query use_case) platforms) use_cases.

(** A text that neither starts nor ends with a whitespace character. *)
Definition trimmed (s : string) : Prop :=
  (forall c r, s = String c r -> is_space c = false) /\
  (forall c, last_char s = Some c -> is_space c = false).






(** * Properties *)

(** ** Strings *)

Lemma append_nil_r (s : string) : s ++ EmptyString = s.
Proof. induction s as [|c s IH]; simpl; [reflexivity | now rewrite IH]. Qed.

Lemma append_assoc (a b c : string) : (a ++ b) ++ c = a ++ b ++ c.
Proof. induction a as [|x a IH]; simpl; [reflexivity | now rewrite IH]. Qed.

Lemma append_inv_head (a b c : string) : a ++ b = a ++ c -> b = c.
Proof.
  induction a as [|x a IH]; simpl; intros H; [exact H | ].
  injection H as H. now apply IH.
Qed.

Lemma length_append (a b : string) :
  String.length (a ++ b) = String.length a + String.length b.
Proof. induction a as [|x a IH]; simpl; [reflexivity | now rewrite IH]. Qed.

Lemma prefix_spec (p s : string) :
  String.prefix p s = true <-> exists post, s = p ++ post.
Proof.
  revert s; induction p as [|c p IH]; intros s.
  - split; [intros _; now exists s | intros _; destruct s; reflexivity].
  - destruct s as [|d s]; simpl.
    + split; [discriminate | intros [post H]; discriminate].
    + destruct (ascii_dec c d) as [->|Hne].
      * rewrite IH. split; intros [post H]; exists post.
        -- now rewrite H.
        -- now injection H.
      * split; [discriminate | ].
        intros [post H]. injection H as H1 _. congruence.
Qed.

Lemma str_in_spec (p s : string) : str_in p s = true <-> Contains p s.
Proof.
  unfold Contains. induction s as [|d s IH].
  - cbn [str_in]. rewrite orb_false_r, prefix_spec. split.
    + intros [post H]. exists EmptyString, post. exact H.
    + intros [[|x pre] [post H]]; [now exists post | discriminate].
  - cbn [str_in]. rewrite orb_true_iff, prefix_spec, IH. split.
    + intros [[post H] | [pre [post H]]].
      * exists EmptyString, post. exact H.
      * exists (String d pre), post. simpl. now rewrite H.
    + intros [[|x pre] [post H]].
      * left. now exists post.
      * right. injection H as _ H. now exists pre, post.
Qed.

Lemma lower_append (a b : string) : lower (a ++ b) = lower a ++ lower b.
Proof. induction a as [|x a IH]; simpl; [reflexivity | now rewrite IH]. Qed.

Lemma Contains_lower (p s : string) :
  Contains p s -> Contains (lower p) (lower s).
Proof.
  intros [pre [post ->]]. exists (lower pre), (lower post).
  now rewrite !lower_append.
Qed.

Lemma Contains_trans (a b c : string) :
  Contains a b -> Contains b c -> Contains a c.
Proof.
  intros [p1 [q1 ->]] [p2 [q2 ->]].
  exists (p2 ++ p1), (q1 ++ q2). now rewrite !append_assoc.
Qed.

(** ** The marker pattern and [re.split] *)

Lemma match_dot_digit (c : ascii) (s : string) :
  is_digit c = true -> match_dot (String c s) = None.
Proof.
  intros Hc. unfold match_dot.
  destruct (Ascii.eqb_spec c "."%char) as [->|_]; [discriminate Hc | reflexivity].
Qed.

Lemma after_digit_complete (ds rest : string) :
  all_digits ds = true ->
  after_digit (ds ++ String "."%char rest) = Some (S (String.length ds)).
Proof.
  induction ds as [|c ds IH]; simpl; intros H; [reflexivity | ].
  apply andb_true_iff in H as [Hc Hds].
  now rewrite Hc, (IH Hds).
Qed.

Lemma match_marker_complete (m rest : string) :
  is_marker m -> match_marker (m ++ rest) = Some (String.length m).
Proof.
  intros [ds [Hne [Hds ->]]].
  destruct ds as [|c ds]; [congruence | ].
  simpl in Hds. apply andb_true_iff in Hds as [Hc Hds].
  rewrite append_assoc. simpl. rewrite Hc, (after_digit_complete _ _ Hds). simpl.
  now rewrite length_append, Nat.add_1_r.
Qed.

Lemma split_scan_skip (a rest cur : string) :
  split_scan (a ++ rest) (String.length a) cur = split_scan rest 0 cur.
Proof.
  induction a as [|x a IH]; simpl; [ | exact IH].
  destruct rest; reflexivity.
Qed.

Lemma split_scan_marker (m rest cur : string) :
  is_marker m ->
  split_scan (m ++ rest) 0 cur = cur :: split_scan rest 0 EmptyString.
Proof.
  intros Hm. pose proof (match_marker_complete _ rest Hm) as Hlen.
  destruct Hm as [ds [Hne [_ ->]]].
  destruct ds as [|c ds]; [congruence | ].
  cbn [append] in *. cbn [split_scan]. rewrite Hlen. cbn [String.length].
  now rewrite split_scan_skip.
Qed.

Lemma has_marker_cons (c : ascii) (s : string) :
  has_marker s -> has_marker (String c s).
Proof.
  intros [pre [m [post [Hm ->]]]]. now exists (String c pre), m, post.
Qed.

Lemma ends_with_digit_cons (c : ascii) (s : string) :
  ends_with_digit s -> ends_with_digit (String c s).
Proof.
  intros [pre [d [Hd ->]]]. now exists (String c pre), d.
Qed.

Lemma digit_dot_is_marker (c : ascii) (s : string) :
  is_digit c = true -> has_marker (String c (String "."%char s)).
Proof.
  intros Hc. exists EmptyString, (String c "."), s. split; [ | reflexivity].
  exists (String c EmptyString). repeat split; [discriminate | ].
  simpl. now rewrite Hc.
Qed.

(** After a digit of a marker-free piece the pattern cannot complete,
    unless the piece ends in digits and the text that follows completes
    it. *)
Lemma after_digit_quiet (seg : string) :
  forall (c : ascii) (t : string),
    is_digit c = true ->
    ~ has_marker (String c seg) ->
    ~ ends_with_digit (String c seg) \/ after_digit t = None ->
    after_digit (seg ++ t) = None.
Proof.
  induction seg as [|c' seg IH]; intros c t Hc Hfree Hend.
  - simpl. destruct Hend as [Hend | Ht]; [ | exact Ht].
    exfalso. apply Hend. now exists EmptyString, c.
  - cbn [append after_digit].
    destruct (is_digit c') eqn:Hc'.
    + rewrite (IH c' t Hc').
      * now apply match_dot_digit.
      * intros H. apply Hfree. now apply has_marker_cons.
      * destruct Hend as [Hend | Ht]; [left | now right].
        intros H. apply Hend. now apply ends_with_digit_cons.
    + unfold match_dot.
      destruct (Ascii.eqb_spec c' "."%char) as [->|_]; [ | reflexivity].
      exfalso. apply Hfree. now apply digit_dot_is_marker.
Qed.

Lemma split_scan_quiet (seg : string) :
  forall (t cur : string),
    ~ has_marker seg ->
    ~ ends_with_digit seg \/ after_digit t = None ->
    split_scan (seg ++ t) 0 cur = split_scan t 0 (cur ++ seg).
Proof.
  induction seg as [|c seg IH]; intros t cur Hfree Hend.
  - simpl. now rewrite append_nil_r.
  - cbn [append split_scan].
    assert (Hm : match_marker (String c (seg ++ t)) = None).
    { unfold match_marker. destruct (is_digit c) eqn:Hc; [ | reflexivity].
      now rewrite (after_digit_quiet seg c t Hc Hfree Hend). }
    rewrite Hm, IH.
    + now rewrite append_assoc.
    + intros H. apply Hfree. now apply has_marker_cons.
    + destruct Hend as [Hend | Ht]; [left | now right].
      intros H. apply Hend. now apply ends_with_digit_cons.
Qed.

Lemma split_scan_segments (s : string) (segs : list string) :
  Segments s segs ->
  forall cur,
    split_scan s 0 cur =
    match segs with
    | [] => [cur]
    | seg :: more => (cur ++ seg) :: more
    end.
Proof.
  induction 1 as [seg Hfree | seg m rest segs Hfree Hend Hm Hrest IH]; intros cur.
  - rewrite <- (append_nil_r seg) at 1.
    rewrite split_scan_quiet by (auto; now right). reflexivity.
  - rewrite split_scan_quiet by (auto; now left).
    rewrite split_scan_marker by assumption.
    rewrite IH. now destruct Hrest.
Qed.

(** [re.split] returns exactly the pieces between the markers. *)
Lemma re_split_marker_segments (s : string) (segs : list string) :
  Segments s segs -> re_split_marker s = segs.
Proof.
  intros H. unfold re_split_marker. rewrite (split_scan_segments _ _ H).
  now destruct H.
Qed.

Lemma has_marker_find (s : string) : has_marker s -> find_marker s = true.
Proof.
  intros [pre [m [post [Hm ->]]]].
  induction pre as [|c pre IH].
  - cbn [append]. destruct (m ++ post) eqn:E; cbn [find_marker];
      rewrite <- E, (match_marker_complete _ post Hm); reflexivity.
  - cbn [append find_marker]. rewrite IH.
    now destruct (match_marker (String c (pre ++ m ++ post))).
Qed.

(** Every text reads as segments: the first match of the pattern is found,
    and the text after it is shorter. *)
Lemma after_digit_sound (s : string) :
  forall n, after_digit s = Some n ->
            exists ds rest, all_digits ds = true /\ s = ds ++ String "."%char rest.
Proof.
  induction s as [|c s IH]; intros n H; [discriminate H | ].
  cbn [after_digit] in H. destruct (is_digit c) eqn:Hc.
  - destruct (after_digit s) as [k|] eqn:Hs.
    + destruct (IH k eq_refl) as [ds [rest [Hds ->]]].
      exists (String c ds), rest. simpl. now rewrite Hc, Hds.
    + now rewrite (match_dot_digit c s Hc) in H.
  - unfold match_dot in H.
    destruct (Ascii.eqb_spec c "."%char) as [->|_]; [ | discriminate H].
    now exists EmptyString, s.
Qed.

Lemma match_marker_sound (s : string) (n : nat) :
  match_marker s = Some n -> exists m rest, is_marker m /\ s = m ++ rest.
Proof.
  destruct s as [|c s]; [discriminate | ].
  unfold match_marker. destruct (is_digit c) eqn:Hc; [ | discriminate].
  destruct (after_digit s) as [k|] eqn:Hs; [ | discriminate]. intros _.
  destruct (after_digit_sound s k Hs) as [ds [rest [Hds ->]]].
  exists (String c ds ++ "."), rest. split.
  - exists (String c ds). repeat split; [discriminate | ].
    simpl. now rewrite Hc, Hds.
  - simpl. now rewrite append_assoc.
Qed.

Lemma no_marker_in_empty : ~ has_marker EmptyString.
Proof. intros H. apply has_marker_find in H. discriminate H. Qed.

Lemma no_digit_ends_empty : ~ ends_with_digit EmptyString.
Proof. intros [[|x pre] [c [_ H]]]; discriminate H. Qed.

Lemma is_marker_length (m : string) : is_marker m -> 2 <= String.length m.
Proof.
  intros [[|c ds] [Hne [_ ->]]]; [congruence | ].
  simpl. rewrite length_append. simpl. lia.
Qed.

Lemma first_marker (s : string) :
  find_marker s = true ->
  exists seg m rest,
    s = seg ++ m ++ rest /\ is_marker m /\ ~ has_marker seg /\ ~ ends_with_digit seg.
Proof.
  induction s as [|c s IH]; [discriminate | ].
  cbn [find_marker]. destruct (match_marker (String c s)) as [n|] eqn:Hm.
  - intros _. destruct (match_marker_sound _ n Hm) as [m [rest [Him Hs]]].
    exists EmptyString, m, rest.
    repeat split; [exact Hs | exact Him | exact no_marker_in_empty | exact no_digit_ends_empty].
  - intros Hfind. destruct (IH Hfind) as [seg [m [rest [-> [Him [Hfree Hend]]]]]].
    exists (String c seg), m, rest. repeat split; [exact Him | | ].
    + intros [[|x pre] [m0 [post [Hm0 Heq]]]].
      * cbn [append] in Heq.
        assert (E : String c (seg ++ m ++ rest) = m0 ++ (post ++ m ++ rest)).
        { change (String c (seg ++ m ++ rest)) with (String c seg ++ m ++ rest).
          now rewrite Heq, append_assoc. }
        rewrite E, (match_marker_complete m0 _ Hm0) in Hm. discriminate Hm.
      * injection Heq as _ Heq. apply Hfree. now exists pre, m0, post.
    + intros [[|x pre] [d [Hd Heq]]].
      * injection Heq as -> ->.
        destruct Him as [ds [Hne [Hds ->]]].
        assert (His : is_marker (String d ds ++ ".")).
        { exists (String d ds). repeat split; [discriminate | ].
          simpl. now rewrite Hd, Hds. }
        cbn [append] in Hm.
        change (String d ((ds ++ ".") ++ rest))
          with ((String d ds ++ ".") ++ rest) in Hm.
        rewrite (match_marker_complete _ rest His) in Hm. discriminate Hm.
      * injection Heq as _ Heq. apply Hend. now exists pre, d.
Qed.

Lemma segments_exist_bounded (n : nat) :
  forall s, String.length s <= n -> exists segs, Segments s segs.
Proof.
  induction n as [|n IH]; intros s Hlen.
  - destruct s; [ | simpl in Hlen; lia].
    exists [EmptyString]. apply Segments_last, no_marker_in_empty.
  - destruct (find_marker s) eqn:Hfind.
    + destruct (first_marker s Hfind) as [seg [m [rest [-> [Him [Hfree Hend]]]]]].
      pose proof (is_marker_length m Him) as Hm.
      rewrite !length_append in Hlen.
      destruct (IH rest ltac:(lia)) as [segs Hsegs].
      exists (seg :: segs). now apply Segments_more.
    + exists [s]. apply Segments_last. intros H.
      apply has_marker_find in H. congruence.
Qed.

Lemma segments_exist (s : string) : exists segs, Segments s segs.
Proof. exact (segments_exist_bounded (String.length s) s (le_n _)). Qed.

(** ** Dictionaries *)

Section DictFacts.

Variable V : Type.
Implicit Types (d : PyDict V) (k : string) (v : V).

Lemma dict_get_set_same k v d : dict_get k (dict_set k v d) = Some v.
Proof.
  induction d as [|[k' v'] d IH]; simpl.
  - now rewrite String.eqb_refl.
  - destruct (String.eqb k' k) eqn:E; simpl; now rewrite E.
Qed.

Lemma dict_get_set_other k k' v d :
  k' <> k -> dict_get k' (dict_set k v d) = dict_get k' d.
Proof.
  intros Hne. induction d as [|[k0 v0] d IH]; simpl.
  - destruct (String.eqb_spec k k'); [congruence | reflexivity].
  - destruct (String.eqb_spec k0 k) as [->|_]; simpl.
    + destruct (String.eqb_spec k k'); [congruence | reflexivity].
    + now rewrite IH.
Qed.

Lemma dict_get_In k d :
  In k (dict_keys d) <-> exists v, dict_get k d = Some v.
Proof.
  induction d as [|[k0 v0] d IH]; simpl.
  - split; [tauto | intros [v H]; discriminate].
  - destruct (String.eqb_spec k0 k) as [->|Hne].
    + split; [now exists v0 | now left].
    + rewrite IH. split; [intros [H|H]; [congruence | exact H] | now right].
Qed.

Lemma dict_get_fresh k d : ~ In k (dict_keys d) -> dict_get k d = None.
Proof.
  intros H. destruct (dict_get k d) eqn:E; [ | reflexivity].
  exfalso. apply H. apply dict_get_In. now exists v.
Qed.

Lemma dict_set_fresh k v d :
  ~ In k (dict_keys d) -> dict_set k v d = (d ++ [(k, v)])%list.
Proof.
  induction d as [|[k0 v0] d IH]; simpl; intros H; [reflexivity | ].
  destruct (String.eqb_spec k0 k) as [->|_]; [tauto | ].
  rewrite IH; [reflexivity | tauto].
Qed.

Lemma dict_keys_set k v d :
  forall k', In k' (dict_keys (dict_set k v d)) <-> k' = k \/ In k' (dict_keys d).
Proof.
  intros k'. induction d as [|[k0 v0] d IH]; simpl.
  - intuition congruence.
  - destruct (String.eqb_spec k0 k) as [->|_]; simpl.
    + intuition congruence.
    + rewrite IH. tauto.
Qed.

Lemma dict_keys_set_NoDup k v d :
  NoDup (dict_keys d) -> NoDup (dict_keys (dict_set k v d)).
Proof.
  induction d as [|[k0 v0] d IH]; simpl; intros H.
  - constructor; [tauto | constructor].
  - inversion H as [|? ? Hnotin Hd]; subst.
    destruct (String.eqb_spec k0 k) as [->|Hne]; simpl.
    + now constructor.
    + constructor; [ | now apply IH].
      rewrite dict_keys_set. intros [->|Hin]; tauto.
Qed.

End DictFacts.

(** ** Running the methods *)

Section Runs.

Context {collab : Collaborators}.

Lemma after_searches_nil (st : State) :
  after_searches [] [] (world st) st = st.
Proof. destruct st; unfold after_searches; simpl. now rewrite !app_nil_r. Qed.

Lemma after_searches_twice calls1 events1 w1 calls2 events2 w2 (st : State) :
  after_searches calls2 events2 w2 (after_searches calls1 events1 w1 st)
  = after_searches (calls1 ++ calls2)%list (events1 ++ events2)%list w2 st.
Proof. unfold after_searches; simpl. now rewrite !app_assoc. Qed.

Lemma run_searches_length queries n t (w : World) :
  length (fst (run_searches queries n t w)) = length queries.
Proof.
  revert w; induction queries as [|q qs IH]; intros w; simpl; [reflexivity | ].
  destruct (exa_search q n t w) as [o w1]. specialize (IH w1).
  destruct (run_searches qs n t w1) as [os w2]. simpl in *. now rewrite IH.
Qed.

(** The classifier: one model call, its reply rendered and trimmed. *)
Lemma determine_industry_run (company_name : string) (st : State) :
  determine_industry company_name st =
  let (o, w) :=
    assistant_generate_reply "industry_analyzer" (industry_prompt company_name) (world st) in
  (match o with
   | Ok r => Ok (strip (str_of_reply r))
   | Raise e => Raise e
   end,
   {| world := w; searches := searches st;
      replies := replies st ++ [{| rc_agent := "industry_analyzer";
                                    rc_content := industry_prompt company_name;
                                    rc_outcome := o |}];
      ui := ui st; files := files st |}).
Proof.
  unfold determine_industry, bind, generate_reply, ret.
  destruct (assistant_generate_reply _ _ _) as [[r|e] w]; reflexivity.
Qed.

(** One turn of the research loop. *)
Lemma research_query_run query research_results (st : State) :
  research_query query research_results st =
  let (o, w) := exa_search query 3 (Some "neural") (world st) in
  (Ok (match o with
       | Ok results => dict_set query (map insight_of results) research_results
       | Raise _ => research_results
       end),
   after_searches [neural_call query o] (research_message query o) w st).
Proof.
  unfold research_query, try_except, bind, search, show, ret, after_searches.
  destruct (exa_search _ _ _ _) as [[results|e] w]; simpl;
    rewrite ?app_nil_r; reflexivity.
Qed.

(** One turn of the platform loop. *)
Lemma collect_platform_run use_case platform resources (st : State) :
  collect_platform use_case platform resources st =
  let (o, w) := exa_search (resource_query use_case platform) 3 None (world st) in
  (Ok (resources ++ yield platform o)%list,
   after_searches [plain_call (resource_query use_case platform) o]
     (resource_message use_case o) w st).
Proof.
  unfold collect_platform, try_except, bind, search, show, ret, after_searches.
  destruct (exa_search _ _ _ _) as [[results|e] w]; simpl;
    rewrite ?app_nil_r; reflexivity.
Qed.

(** The research loop, for any list of queries. *)
Lemma research_loop_run queries :
  forall research_results (st : State),
    for_each queries research_query research_results st =
    let (os, w) := run_searches queries 3 (Some "neural") (world st) in
    (Ok (research_map (combine queries os) research_results),
     after_searches (research_calls queries os) (research_messages queries os) w st).
Proof.
  induction queries as [|q qs IH]; intros m st.
  - simpl. unfold ret. now rewrite after_searches_nil.
  - cbn [for_each run_searches]. unfold bind. rewrite research_query_run.
    destruct (exa_search q 3 (Some "neural") (world st)) as [o w1].
    rewrite IH. cbn [world after_searches].
    destruct (run_searches qs 3 (Some "neural") w1) as [os w2].
    now rewrite after_searches_twice.
Qed.

(** The three platform searches of one use case and the entry they
    leave. *)
Lemma collect_use_case_run use_case resource_map (st : State) :
  collect_use_case use_case resource_map st =
  let (os, w) :=
    run_searches (map (resource_query use_case) platforms) 3 None (world st) in
  (Ok (dict_set use_case (firstn 3 (accumulated os)) resource_map),
   after_searches (resource_calls use_case os) (resource_messages use_case os) w st).
Proof.
  unfold collect_use_case, platforms, bind. cbn [for_each map run_searches].
  unfold bind. rewrite collect_platform_run.
  destruct (exa_search _ 3 None (world st)) as [o1 w1].
  rewrite collect_platform_run. cbn [world after_searches].
  destruct (exa_search _ 3 None w1) as [o2 w2].
  rewrite collect_platform_run. cbn [world after_searches].
  destruct (exa_search _ 3 None w2) as [o3 w3].
  unfold ret, after_searches, accumulated, resource_calls, resource_messages, platforms.
  simpl. now rewrite !app_nil_r, <- !app_assoc.
Qed.

End Runs.

(** ** The resource collector *)

Lemma keeps_Kept (platform : string) (res : SearchHit) :
  keeps platform res = true <-> Kept platform res.
Proof.
  unfold keeps, Kept. cbn [existsb].
  rewrite andb_true_iff, !orb_true_iff, !str_in_spec. intuition discriminate.
Qed.

Lemma filter_Selected (platform : string) (results : list SearchHit) :
  Selected (Kept platform) results (filter (keeps platform) results).
Proof.
  induction results as [|res results IH]; [constructor | ].
  cbn [filter]. destruct (keeps platform res) eqn:E.
  - apply Selected_keep; [now apply keeps_Kept | exact IH].
  - apply Selected_skip; [ | exact IH].
    intros H. apply keeps_Kept in H. congruence.
Qed.

Lemma Selected_filter (platform : string) (results hits : list SearchHit) :
  Selected (Kept platform) results hits -> hits = filter (keeps platform) results.
Proof.
  induction 1 as [|res l l' Hres _ IH|res l l' Hres _ IH]; [reflexivity | | ].
  - cbn [filter]. apply keeps_Kept in Hres. now rewrite Hres, IH.
  - cbn [filter]. destruct (keeps platform res) eqn:E; [ | exact IH].
    apply keeps_Kept in E. contradiction.
Qed.

Lemma yield_Contribution (platform : string) (o : outcome (list SearchHit)) :
  exists hits,
    Contribution platform o hits /\
    yield platform o
    = map (fun res => [("url", hit_url res); ("title", hit_title res)]) hits.
Proof.
  destruct o as [results|e].
  - exists (filter (keeps platform) results). split; [apply filter_Selected | reflexivity].
  - now exists [].
Qed.

Section Collector.

Context {collab : Collaborators}.

Lemma platform_outcomes_three (use_case : string) (w : World) :
  exists o1 o2 o3, platform_outcomes use_case w = [o1; o2; o3].
Proof.
  pose proof (run_searches_length (map (resource_query use_case) platforms) 3 None w) as H.
  unfold platform_outcomes.
  destruct (fst (run_searches _ 3 None w)) as [|o1 [|o2 [|o3 [|o4 os]]]];
    try discriminate H.
  now exists o1, o2, o3.
Qed.

Lemma platform_outcomes_all_failed (use_case : string) (w : World) :
  (forall p w', In p platforms ->
                failed (fst (exa_search (resource_query use_case p) 3 None w')) = true) ->
  accumulated (platform_outcomes use_case w) = [].
Proof.
  intros Hfail. unfold platform_outcomes, platforms in *.
  cbn [map run_searches].
  pose proof (Hfail "kaggle.com/datasets" w (or_introl eq_refl)) as H1.
  destruct (exa_search (resource_query use_case "kaggle.com/datasets") 3 None w)
    as [o1 w1].
  pose proof (Hfail "huggingface.co/datasets" w1 (or_intror (or_introl eq_refl))) as H2.
  destruct (exa_search (resource_query use_case "huggingface.co/datasets") 3 None w1)
    as [o2 w2].
  pose proof (Hfail "github.com/datasets" w2
                    (or_intror (or_intror (or_introl eq_refl)))) as H3.
  destruct (exa_search (resource_query use_case "github.com/datasets") 3 None w2)
    as [o3 w3].
  simpl in H1, H2, H3.
  destruct o1; [discriminate H1 | ].
  destruct o2; [discriminate H2 | ].
  destruct o3; [discriminate H3 | ].
  reflexivity.
Qed.

(** The loop over the use cases, from any map and any state: it ends
    normally; the keys are the old ones and the use cases; a value is an
    old one, or the first three resources of one run of three searches
    that the trace holds. *)
Lemma collect_loop (use_cases : list string) :
  forall (m0 : PyDict (list (PyDict string))) (st : State),
  exists m st' calls,
    for_each use_cases collect_use_case m0 st = (Ok m, st') /\
    searches st' = (searches st ++ calls)%list /\
    replies st' = replies st /\
    files st' = files st /\
    (forall k, In k (dict_keys m) <-> In k (dict_keys m0) \/ In k use_cases) /\
    (NoDup (dict_keys m0) -> NoDup (dict_keys m)) /\
    (forall k v,
        dict_get k m = Some v ->
        dict_get k m0 = Some v \/
        (In k use_cases /\
         exists w before after,
           v = firstn 3 (accumulated (platform_outcomes k w)) /\
           calls = (before ++ resource_calls k (platform_outcomes k w) ++ after)%list)).
Proof.
  induction use_cases as [|u us IH]; intros m0 st.
  - exists m0, st, []. simpl. rewrite app_nil_r.
    repeat split; auto; tauto.
  - cbn [for_each]. unfold bind. rewrite collect_use_case_run.
    destruct (run_searches (map (resource_query u) platforms) 3 None (world st))
      as [os w] eqn:Eos.
    assert (Hos : platform_outcomes u (world st) = os)
      by (unfold platform_outcomes; now rewrite Eos).
    destruct (IH (dict_set u (firstn 3 (accumulated os)) m0)
                 (after_searches (resource_calls u os) (resource_messages u os) w st))
      as [m [st' [calls [Hrun [Hs [Hr [Hf [Hkeys [Hnd Hval]]]]]]]]].
    exists m, st', (resource_calls u os ++ calls)%list.
    split; [exact Hrun | ].
    split; [rewrite Hs; simpl; now rewrite app_assoc | ].
    split; [exact Hr | ].
    split; [exact Hf | ].
    split; [ | split].
    + intros k. rewrite Hkeys, dict_keys_set. simpl. intuition congruence.
    + intros H. apply Hnd. now apply dict_keys_set_NoDup.
    + intros k v Hk. destruct (Hval k v Hk) as [Hold | [Hin [w' [before [after [Hv Hc]]]]]].
      * destruct (string_dec k u) as [->|Hne].
        -- rewrite dict_get_set_same in Hold. injection Hold as <-.
           right. split; [now left | ].
           exists (world st), [], calls. now rewrite Hos.
        -- rewrite dict_get_set_other in Hold by assumption. now left.
      * right. split; [now right | ].
        exists w', (resource_calls u os ++ before)%list, after.
        split; [exact Hv | ]. rewrite Hc. now rewrite app_assoc.
Qed.

(** C8.  Every list in the map returned by [collect_resource_assets]
    has at most three elements, and it is the first three of the
    filtered results of the three platform searches made for that use
    case, accumulated in platform order (kaggle, huggingface, github):
    of each search that returned, the results whose URL contains the
    platform text and a dataset token, in the order the service gave
    them, each as its url and title.  The three searches stand next to
    each other in the trace.  The collector always returns. *)
Theorem resources_first_three (use_cases : list string) (st : State) :
  exists m st',
    collect_resource_assets use_cases st = (Ok m, st') /\
    forall k v,
      dict_get k m = Some v ->
      length v <= 3 /\
      exists w o1 o2 o3 before after h1 h2 h3,
        platform_outcomes k w = [o1; o2; o3] /\
        v = firstn 3 (yield "kaggle.com/datasets" o1
                      ++ yield "huggingface.co/datasets" o2
                      ++ yield "github.com/datasets" o3)%list /\
        searches st' =
        (searches st ++ before
         ++ [plain_call (resource_query k "kaggle.com/datasets") o1;
             plain_call (resource_query k "huggingface.co/datasets") o2;
             plain_call (resource_query k "github.com/datasets") o3]
         ++ after)%list /\
        Contribution "kaggle.com/datasets" o1 h1 /\
        Contribution "huggingface.co/datasets" o2 h2 /\
        Contribution "github.com/datasets" o3 h3 /\
        v = firstn 3
              (map (fun res => [("url", hit_url res); ("title", hit_title res)])
                 (h1 ++ h2 ++ h3)%list).
Proof.
  unfold collect_resource_assets.
  destruct (collect_loop use_cases [] st)
    as [m [st' [calls [Hrun [Hs [_ [_ [_ [_ Hval]]]]]]]]].
  exists m, st'. split; [exact Hrun | ].
  intros k v Hk.
  destruct (Hval k v Hk) as [Hold | [_ [w [before [after [Hv Hc]]]]]];
    [discriminate Hold | ].
  split; [rewrite Hv; apply firstn_le_length | ].
  destruct (platform_outcomes_three k w) as [o1 [o2 [o3 Ho]]].
  destruct (yield_Contribution "kaggle.com/datasets" o1) as [h1 [Hc1 Hy1]].
  destruct (yield_Contribution "huggingface.co/datasets" o2) as [h2 [Hc2 Hy2]].
  destruct (yield_Contribution "github.com/datasets" o3) as [h3 [Hc3 Hy3]].
  exists w, o1, o2, o3, before, after, h1, h2, h3.
  split; [exact Ho | ].
  rewrite Ho in Hv, Hc.
  assert (Hv' : v = firstn 3 (yield "kaggle.com/datasets" o1
                             ++ yield "huggingface.co/datasets" o2
                             ++ yield "github.com/datasets" o3)%list).
  { rewrite Hv. unfold accumulated, platforms. simpl. now rewrite app_nil_r. }
  split; [exact Hv' | ].
  split; [rewrite Hs, Hc; reflexivity | ].
  split; [exact Hc1 | ]. split; [exact Hc2 | ]. split; [exact Hc3 | ].
  now rewrite Hv', Hy1, Hy2, Hy3, !map_app.
Qed.

(** C10.  The keys of the map returned by [collect_resource_assets]
    are exactly the use-case texts, each once, and every use case is
    bound to a list.  A use case all of whose searches failed in the run
    is a key all the same, bound to the empty list; so is, in
    particular, a use case whose searches fail in every state of the
    world. *)
Theorem resource_map_keys (use_cases : list string) (st : State) :
  exists m st' calls,
    collect_resource_assets use_cases st = (Ok m, st') /\
    searches st' = (searches st ++ calls)%list /\
    (forall k, In k (dict_keys m) <-> In k use_cases) /\
    NoDup (dict_keys m) /\
    (forall k, In k use_cases -> exists v, dict_get k m = Some v) /\
    (forall k,
        In k use_cases ->
        (forall c,
            In c calls ->
            In (sc_query c) (map (resource_query k) platforms) ->
            failed (sc_outcome c) = true) ->
        dict_get k m = Some []) /\
    (forall k,
        In k use_cases ->
        (forall p w, In p platforms ->
                     failed (fst (exa_search (resource_query k p) 3 None w)) = true) ->
        dict_get k m = Some []).
Proof.
  unfold collect_resource_assets.
  destruct (collect_loop use_cases [] st)
    as [m [st' [calls [Hrun [Hs [_ [_ [Hkeys [Hnd Hval]]]]]]]]].
  exists m, st', calls. split; [exact Hrun | ].
  split; [exact Hs | ].
  split; [intros k; rewrite Hkeys; simpl; tauto | ].
  split; [apply Hnd; constructor | ].
  assert (Hbound : forall k, In k use_cases -> exists v, dict_get k m = Some v).
  { intros k Hin. apply dict_get_In, Hkeys. now right. }
  split; [exact Hbound | ].
  split.
  - intros k Hin Hfail. destruct (Hbound k Hin) as [v Hk]. rewrite Hk. f_equal.
    destruct (Hval k v Hk) as [Hold | [_ [w [before [after [Hv Hc]]]]]];
      [discriminate Hold | ].
    destruct (platform_outcomes_three k w) as [o1 [o2 [o3 Ho]]].
    rewrite Ho in Hv, Hc. rewrite Hv.
    assert (Hcall : forall p o,
               In (plain_call (resource_query k p) o)
                  (resource_calls k [o1; o2; o3]) ->
               In p platforms -> failed o = true).
    { intros p o Hin' Hp.
      apply (Hfail (plain_call (resource_query k p) o)).
      - rewrite Hc. apply in_or_app. right. apply in_or_app. now left.
      - cbn [sc_query plain_call]. now apply in_map. }
    pose proof (Hcall "kaggle.com/datasets" o1) as H1.
    pose proof (Hcall "huggingface.co/datasets" o2) as H2.
    pose proof (Hcall "github.com/datasets" o3) as H3.
    unfold resource_calls, platforms in H1, H2, H3. simpl in H1, H2, H3.
    destruct o1; [discriminate H1; auto | ].
    destruct o2; [discriminate H2; auto | ].
    destruct o3; [discriminate H3; auto | ].
    reflexivity.
  - intros k Hin Hfail. destruct (Hbound k Hin) as [v Hk]. rewrite Hk. f_equal.
    destruct (Hval k v Hk) as [Hold | [_ [w [_ [_ [Hv _]]]]]]; [discriminate Hold | ].
    rewrite Hv, (platform_outcomes_all_failed k w Hfail). reflexivity.
Qed.

End Collector.

(** ** The research stage *)

Lemma last_char_append (s t : string) :
  t <> EmptyString -> last_char (s ++ t) = last_char t.
Proof.
  intros Ht. induction s as [|c s IH]; [reflexivity | ].
  cbn [append last_char]. destruct (s ++ t) eqn:E; [ | exact IH].
  destruct s; simpl in E; [congruence | discriminate E].
Qed.

(** The three templates never produce the same query twice: they end in
    different letters. *)
Lemma search_queries_NoDup (company_name industry : string) :
  NoDup (search_queries company_name industry).
Proof.
  assert (Hlast : forall a b x y : string,
             x <> EmptyString -> y <> EmptyString ->
             last_char x <> last_char y -> a ++ x <> b ++ y).
  { intros a b x y Hx Hy Hne Heq. apply Hne.
    rewrite <- (last_char_append a x Hx), <- (last_char_append b y Hy).
    now rewrite Heq. }
  unfold search_queries.
  repeat constructor; simpl; intros H;
    repeat (destruct H as [H|H]; [revert H; apply Hlast; discriminate | ]);
    exact H.
Qed.

Lemma research_map_three q1 q2 q3 o1 o2 o3 :
  NoDup [q1; q2; q3] ->
  research_map (combine [q1; q2; q3] [o1; o2; o3]) []
  = (research_entry q1 o1 ++ research_entry q2 o2 ++ research_entry q3 o3)%list.
Proof.
  intros Hnd.
  inversion Hnd as [|? ? H1 Hnd']; subst.
  inversion Hnd' as [|? ? H2 _]; subst.
  assert (E12 : String.eqb q1 q2 = false) by (apply String.eqb_neq; simpl in H1; intuition congruence).
  assert (E13 : String.eqb q1 q3 = false) by (apply String.eqb_neq; simpl in H1; intuition congruence).
  assert (E23 : String.eqb q2 q3 = false) by (apply String.eqb_neq; simpl in H2; intuition congruence).
  destruct o1, o2, o3; simpl; rewrite ?E12, ?E13, ?E23; simpl;
    rewrite ?E12, ?E13, ?E23; reflexivity.
Qed.

Lemma research_entries_lookup q1 q2 q3 o1 o2 o3 :
  NoDup [q1; q2; q3] ->
  forall q o,
    In (q, o) (combine [q1; q2; q3] [o1; o2; o3]) ->
    match o with
    | Ok results =>
        dict_get q (research_entry q1 o1 ++ research_entry q2 o2 ++ research_entry q3 o3)%list
        = Some (map insight_of results)
    | Raise _ =>
        dict_get q (research_entry q1 o1 ++ research_entry q2 o2 ++ research_entry q3 o3)%list
        = None
    end.
Proof.
  intros Hnd q o Hin.
  inversion Hnd as [|? ? H1 Hnd']; subst.
  inversion Hnd' as [|? ? H2 _]; subst.
  simpl in H1, H2.
  assert (E12 : String.eqb q1 q2 = false) by (apply String.eqb_neq; intuition congruence).
  assert (E13 : String.eqb q1 q3 = false) by (apply String.eqb_neq; intuition congruence).
  assert (E23 : String.eqb q2 q3 = false) by (apply String.eqb_neq; intuition congruence).
  assert (E21 : String.eqb q2 q1 = false) by (now rewrite String.eqb_sym).
  assert (E31 : String.eqb q3 q1 = false) by (now rewrite String.eqb_sym).
  assert (E32 : String.eqb q3 q2 = false) by (now rewrite String.eqb_sym).
  destruct Hin as [H|[H|[H|[]]]]; injection H as <- <-;
    destruct o1, o2, o3; simpl;
    rewrite ?String.eqb_refl, ?E12, ?E13, ?E23, ?E21, ?E31, ?E32; reflexivity.
Qed.

Lemma research_entries_count q1 q2 q3 (o1 o2 o3 : outcome (list SearchHit)) :
  length (research_entry q1 o1 ++ research_entry q2 o2 ++ research_entry q3 o3)%list
  + length (filter failed [o1; o2; o3]) = 3
  /\ length (research_message q1 o1 ++ research_message q2 o2 ++ research_message q3 o3)%list
     = length (filter failed [o1; o2; o3]).
Proof. destruct o1, o2, o3; simpl; split; reflexivity. Qed.

Section Research.

Context {collab : Collaborators}.

Lemma research_outcomes_three (company_name industry : string) (w : World) :
  exists o1 o2 o3, research_outcomes company_name industry w = [o1; o2; o3].
Proof.
  pose proof (run_searches_length (search_queries company_name industry) 3
                (Some "neural") w) as H.
  unfold research_outcomes.
  destruct (fst (run_searches _ 3 (Some "neural") w)) as [|o1 [|o2 [|o3 [|o4 os]]]];
    try discriminate H.
  now exists o1, o2, o3.
Qed.

(** The whole method: the classifier, then the loop. *)
Lemma research_company_run (company_name : string) (st : State) :
  research_company company_name st =
  match determine_industry company_name st with
  | (Ok industry, st1) =>
      let queries := search_queries company_name industry in
      let (os, w) := run_searches queries 3 (Some "neural") (world st1) in
      (Ok (research_map (combine queries os) [], industry),
       after_searches (research_calls queries os) (research_messages queries os) w st1)
  | (Raise e, st1) => (Raise e, st1)
  end.
Proof.
  unfold research_company, bind.
  destruct (determine_industry company_name st) as [[industry|e] st1]; [ | reflexivity].
  rewrite research_loop_run.
  now destruct (run_searches _ 3 (Some "neural") (world st1)) as [os w].
Qed.

(** After a successful classification the method returns the entries of
    the queries that succeeded, in template order. *)
Lemma research_company_ok (company_name industry : string) (st st1 : State) :
  determine_industry company_name st = (Ok industry, st1) ->
  exists o1 o2 o3 w,
    research_outcomes company_name industry (world st1) = [o1; o2; o3] /\
    research_company company_name st =
    (Ok ((research_entry (industry ++ " industry overview and trends") o1
          ++ research_entry (company_name ++ " strategic focus and market position") o2
          ++ research_entry (industry ++ " technological innovations and future outlook") o3)%list,
         industry),
     after_searches
       (research_calls (search_queries company_name industry) [o1; o2; o3])
       (research_messages (search_queries company_name industry) [o1; o2; o3])
       w st1).
Proof.
  intros Hind.
  destruct (research_outcomes_three company_name industry (world st1))
    as [o1 [o2 [o3 Ho]]].
  rewrite research_company_run, Hind. cbv zeta.
  unfold research_outcomes in *.
  destruct (run_searches _ 3 (Some "neural") (world st1)) as [os w].
  simpl in Ho. subst os.
  exists o1, o2, o3, w. split; [reflexivity | ].
  pose proof (search_queries_NoDup company_name industry) as Hnd.
  unfold search_queries in *.
  now rewrite (research_map_three _ _ _ o1 o2 o3 Hnd).
Qed.

(** C4.  Once the industry is known, [research_company] makes its
    three searches whatever their outcomes and returns normally.  A
    query whose search raised is not a key of the returned map (it is
    not bound to an empty list); a query whose search returned is bound
    to its mapped results.  Each failure shows one message through
    [st.error].  With exactly one failure the map has two entries and
    one message is shown. *)
Theorem research_partial_failure (company_name industry : string) (st st1 : State) :
  determine_industry company_name st = (Ok industry, st1) ->
  exists o1 o2 o3 m st',
    research_outcomes company_name industry (world st1) = [o1; o2; o3] /\
    research_company company_name st = (Ok (m, industry), st') /\
    searches st' =
    (searches st1
     ++ research_calls (search_queries company_name industry) [o1; o2; o3])%list /\
    ui st' =
    (ui st1
     ++ research_messages (search_queries company_name industry) [o1; o2; o3])%list /\
    (forall q o,
        In (q, o) (combine (search_queries company_name industry) [o1; o2; o3]) ->
        match o with
        | Ok results => dict_get q m = Some (map insight_of results)
        | Raise _ => dict_get q m = None
        end) /\
    length m + length (filter failed [o1; o2; o3]) = 3 /\
    length (research_messages (search_queries company_name industry) [o1; o2; o3])
    = length (filter failed [o1; o2; o3]) /\
    (length (filter failed [o1; o2; o3]) = 1 ->
     length m = 2 /\ exists body, ui st' = (ui st1 ++ [StError body])%list).
Proof.
  intros Hind.
  destruct (research_company_ok company_name industry st st1 Hind)
    as [o1 [o2 [o3 [w [Ho Hrun]]]]].
  pose proof (search_queries_NoDup company_name industry) as Hnd.
  unfold search_queries in *.
  set (q1 := industry ++ " industry overview and trends") in *.
  set (q2 := company_name ++ " strategic focus and market position") in *.
  set (q3 := industry ++ " technological innovations and future outlook") in *.
  destruct (research_entries_count q1 q2 q3 o1 o2 o3) as [Hlen Hmsg].
  eexists o1, o2, o3, _, _.
  split; [exact Ho | ].
  split; [exact Hrun | ].
  split; [reflexivity | ].
  split; [reflexivity | ].
  split; [exact (research_entries_lookup q1 q2 q3 o1 o2 o3 Hnd) | ].
  split; [exact Hlen | ].
  split; [unfold research_messages; simpl; now rewrite app_nil_r | ].
  intros Hone. split; [rewrite Hone in Hlen; lia | ].
  unfold research_messages. cbn [ui after_searches combine flat_map fst snd].
  rewrite app_nil_r.
  destruct o1, o2, o3; simpl in Hone; try discriminate Hone; simpl; eexists; reflexivity.
Qed.

Lemma determine_industry_frame (company_name : string) (st : State) :
  searches (snd (determine_industry company_name st)) = searches st /\
  ui (snd (determine_industry company_name st)) = ui st /\
  files (snd (determine_industry company_name st)) = files st.
Proof.
  rewrite determine_industry_run.
  now destruct (assistant_generate_reply _ _ _) as [o w].
Qed.

(** C5.  For "Acme Robotics" classified as "Industrial Robotics" the
    templates give the three queries of the scenario.  For every
    company, once the classifier has returned [industry], the searches
    that [research_company] adds to the trace are exactly the three
    instantiated templates, in order, each asking for 3 results in
    neural mode; the returned map has at most 3 keys, each of them one
    of these queries. *)
Theorem research_queries_issued :
  search_queries "Acme Robotics" "Industrial Robotics"
  = [ "Industrial Robotics industry overview and trends";
      "Acme Robotics strategic focus and market position";
      "Industrial Robotics technological innovations and future outlook" ] /\
  forall (company_name industry : string) (st st1 : State),
    determine_industry company_name st = (Ok industry, st1) ->
    exists m st' calls,
      research_company company_name st = (Ok (m, industry), st') /\
      searches st' = (searches st ++ calls)%list /\
      map sc_query calls
      = [ industry ++ " industry overview and trends";
          company_name ++ " strategic focus and market position";
          industry ++ " technological innovations and future outlook" ] /\
      Forall (fun c => sc_num_results c = 3 /\ sc_type c = Some "neural") calls /\
      length (dict_keys m) <= 3 /\
      (forall k,
          In k (dict_keys m) ->
          k = industry ++ " industry overview and trends" \/
          k = company_name ++ " strategic focus and market position" \/
          k = industry ++ " technological innovations and future outlook").
Proof.
  split; [reflexivity | ].
  intros company_name industry st st1 Hind.
  destruct (research_company_ok company_name industry st st1 Hind)
    as [o1 [o2 [o3 [w [_ Hrun]]]]].
  pose proof (determine_industry_frame company_name st) as [Hs _].
  rewrite Hind in Hs. simpl in Hs.
  eexists _, _, _. split; [exact Hrun | ].
  split; [cbn [searches after_searches]; now rewrite Hs | ].
  split; [reflexivity | ].
  split; [repeat constructor | ].
  split.
  - destruct o1, o2, o3; simpl; lia.
  - intros k. destruct o1, o2, o3; simpl; intuition congruence.
Qed.

(** C2.  When the model call of the classifier raises, the exception
    leaves [determine_industry] and [research_company] as it is: no
    label is returned and no search is made.  When the call returns a
    text, the label is that text trimmed, also when nothing is left of
    it: an empty or blank reply gives the empty label, with which
    [research_company] goes on. *)
Theorem classification_failure_policy (company_name : string) (st : State) :
  (forall e w,
      assistant_generate_reply "industry_analyzer" (industry_prompt company_name)
        (world st) = (Raise e, w) ->
      fst (determine_industry company_name st) = Raise e /\
      fst (research_company company_name st) = Raise e /\
      searches (snd (research_company company_name st)) = searches st) /\
  (forall text w,
      assistant_generate_reply "industry_analyzer" (industry_prompt company_name)
        (world st) = (Ok (ReplyStr text), w) ->
      fst (determine_industry company_name st) = Ok (strip text) /\
      exists m, fst (research_company company_name st) = Ok (m, strip text)).
Proof.
  split.
  - intros e w Hreply.
    rewrite research_company_run, determine_industry_run, Hreply. auto.
  - intros text w Hreply.
    assert (Hind : determine_industry company_name st
                   = (Ok (strip text), snd (determine_industry company_name st))).
    { rewrite determine_industry_run, Hreply. reflexivity. }
    split; [now rewrite Hind | ].
    destruct (research_company_ok company_name (strip text) st _ Hind)
      as [o1 [o2 [o3 [w' [_ Hrun]]]]].
    rewrite Hrun. eexists. reflexivity.
Qed.

End Research.

(** ** The resource filter *)

(** C7.  [keeps platform res] holds exactly when the URL of [res]
    contains [platform] and its lower-cased form contains "dataset" or
    "data"; the resources a platform search contributes are the results
    that pass this test, in order.  For kaggle.com/datasets the URL
    kaggle.com/datasets/x/robotics-data passes and kaggle.com/notebooks/x
    does not. *)
Theorem keeps_platform_and_token :
  (forall platform res,
      keeps platform res = true <->
      Contains platform (hit_url res) /\
      (Contains "dataset" (lower (hit_url res)) \/ Contains "data" (lower (hit_url res)))) /\
  (forall platform results r,
      In r (platform_resources platform results) <->
      exists res, In res results /\ keeps platform res = true /\ r = resource_of res) /\
  (forall t s d,
      keeps "kaggle.com/datasets" (hit t "kaggle.com/datasets/x/robotics-data" s d) = true) /\
  (forall t s d,
      keeps "kaggle.com/datasets" (hit t "kaggle.com/notebooks/x" s d) = false).
Proof.
  split; [ | split; [ | split; reflexivity]].
  - intros platform res. unfold keeps. cbn [existsb].
    rewrite andb_true_iff, !orb_true_iff, !str_in_spec. intuition discriminate.
  - intros platform results r. unfold platform_resources.
    rewrite in_map_iff. split.
    + intros [res [Hr Hin]]. apply filter_In in Hin as [Hin Hk]. now exists res.
    + intros [res [Hin [Hk Hr]]]. exists res. split; [now symmetry | ].
      apply filter_In. now split.
Qed.

(** Every platform of the fixed set contains "dataset" itself, so for
    these platforms the token test never rejects a URL that names the
    platform. *)
Lemma keeps_fixed_platform (platform : string) (res : SearchHit) :
  In platform platforms ->
  keeps platform res = str_in platform (hit_url res).
Proof.
  intros Hin. unfold keeps.
  destruct (str_in platform (hit_url res)) eqn:E; [ | reflexivity].
  cbn [existsb andb]. apply orb_true_iff. left.
  apply str_in_spec. apply str_in_spec in E.
  apply Contains_trans with (b := lower platform); [ | now apply Contains_lower].
  apply str_in_spec.
  unfold platforms in Hin. simpl in Hin.
  destruct Hin as [<-|[<-|[<-|[]]]]; reflexivity.
Qed.

(** ** The use-case parser *)

Lemma parse_use_cases_segments (s : string) (segs : list string) :
  Segments s segs -> parse_use_cases s = map strip (filter nonblank segs).
Proof.
  intros H. unfold parse_use_cases. now rewrite (re_split_marker_segments s segs H).
Qed.

(** C6.  The reply is split at its numbered-list markers (a run of
    digits and a period); each piece is trimmed and the pieces that trim
    to nothing are dropped; every reply reads as such pieces.
    "1. Improve routing. 2. Predict churn." gives the two sentences.  A
    reply without marker gives the one trimmed reply when something is
    left of it, and no use case at all when it is empty or blank. *)
Theorem parse_use_cases_spec :
  (forall s, exists segs, Segments s segs) /\
  (forall s segs,
      Segments s segs -> parse_use_cases s = map strip (filter nonblank segs)) /\
  parse_use_cases "1. Improve routing. 2. Predict churn."
  = ["Improve routing."; "Predict churn."] /\
  (forall s,
      ~ has_marker s -> strip s <> EmptyString -> parse_use_cases s = [strip s]) /\
  (forall s,
      ~ has_marker s -> strip s = EmptyString -> parse_use_cases s = []).
Proof.
  split; [exact segments_exist | ].
  split; [exact parse_use_cases_segments | ].
  split; [reflexivity | ].
  split; intros s Hfree Hs;
    rewrite (parse_use_cases_segments s [s] (Segments_last s Hfree));
    unfold nonblank; cbn [filter]; destruct (strip s) eqn:E; cbn [truthy map];
    rewrite ?E; congruence.
Qed.

(** ** The proposal assembler *)

Section Proposal.

Context {collab : Collaborators}.

Lemma stateless_ret {A : Type} (a : A) : stateless (ret a).
Proof. now exists (Ok a). Qed.

Lemma stateless_raise {A : Type} (e : exn) : stateless (@raise _ A e).
Proof. now exists (Raise e). Qed.

Lemma stateless_bind {A B : Type} (m : M A) (k : A -> M B) :
  stateless m -> (forall a, stateless (k a)) -> stateless (bind m k).
Proof.
  intros [[a|e] Hm] Hk.
  - destruct (Hk a) as [r Hr]. exists r. intros st. unfold bind. now rewrite Hm, Hr.
  - exists (Raise e). intros st. unfold bind. now rewrite Hm.
Qed.

Lemma stateless_for_each {A B : Type} (xs : list A) (body : A -> B -> M B) :
  (forall x acc, stateless (body x acc)) ->
  forall acc, stateless (for_each xs body acc).
Proof.
  intros Hbody. induction xs as [|x xs IH]; intros acc; simpl.
  - apply stateless_ret.
  - apply stateless_bind; [apply Hbody | exact IH].
Qed.

Lemma stateless_dict_item {V : Type} (k : string) (d : PyDict V) :
  stateless (dict_item k d).
Proof.
  unfold dict_item. destruct (dict_get k d); [apply stateless_ret | apply stateless_raise].
Qed.

Lemma stateless_fst {A : Type} (m : M A) (st1 st2 : State) :
  stateless m -> fst (m st1) = fst (m st2).
Proof. intros [r Hr]. now rewrite !Hr. Qed.

Lemma stateless_snd {A : Type} (m : M A) (st : State) :
  stateless m -> snd (m st) = st.
Proof. intros [r Hr]. now rewrite Hr. Qed.

Lemma bind_now {B : Type} (k : datetime -> M B) (st : State) :
  bind now k st = k (fst (datetime_now (world st))) (after_clock st).
Proof.
  unfold bind, now, after_clock. now destruct (datetime_now (world st)) as [d w].
Qed.

Ltac stateless_steps :=
  repeat first
    [ apply stateless_ret
    | apply stateless_dict_item
    | apply stateless_for_each; intros
    | apply stateless_bind; [ | intros ]
    | match goal with
      | |- stateless (match ?x with _ => _ end) => destruct x
      end ].

(** The date line shows the calendar date only. *)
Lemma strftime_same_date (d1 d2 : datetime) :
  year d1 = year d2 -> month d1 = month d2 -> day d1 = day d2 ->
  strftime_B_d_Y d1 = strftime_B_d_Y d2.
Proof. unfold strftime_B_d_Y. now intros -> -> ->. Qed.

(** C1.  [generate_final_proposal] takes no timestamp: it reads the
    clock.  Two calls with the same five arguments, made in any two
    states whose clocks show the same calendar date, return the same
    document (or raise the same [KeyError]); the call changes nothing
    but the world behind the clock. *)
Theorem final_proposal_same_date (company_name industry : string)
    (use_cases : list string)
    (resource_map research_insights : PyDict (list (PyDict string)))
    (st1 st2 : State) :
  year (fst (datetime_now (world st1))) = year (fst (datetime_now (world st2))) ->
  month (fst (datetime_now (world st1))) = month (fst (datetime_now (world st2))) ->
  day (fst (datetime_now (world st1))) = day (fst (datetime_now (world st2))) ->
  fst (generate_final_proposal company_name industry use_cases resource_map
         research_insights st1)
  = fst (generate_final_proposal company_name industry use_cases resource_map
           research_insights st2)
  /\ snd (generate_final_proposal company_name industry use_cases resource_map
            research_insights st1)
     = after_clock st1.
Proof.
  intros Hy Hm Hd.
  pose proof (strftime_same_date _ _ Hy Hm Hd) as Hdate.
  unfold generate_final_proposal. cbv zeta. rewrite !bind_now.
  rewrite Hdate. split.
  - apply stateless_fst. stateless_steps.
  - apply stateless_snd. stateless_steps.
Qed.

End Proposal.

(** ** The run of the four phases *)

Section Run.

Context {collab : Collaborators}.

Lemma research_company_frame (company_name : string) (st : State) :
  files (snd (research_company company_name st)) = files st.
Proof.
  rewrite research_company_run.
  pose proof (determine_industry_frame company_name st) as [_ [_ Hf]].
  destruct (determine_industry company_name st) as [[industry|e] st1];
    simpl in Hf; [ | exact Hf].
  cbv zeta. now destruct (run_searches _ 3 (Some "neural") (world st1)).
Qed.

(** C9.  When the model call of [generate_use_cases] raises, the
    exception leaves the generator as it is, and with it the whole run:
    after the research phase no resource search is made, no report is
    shown and the report file is not written. *)
Theorem generation_failure_aborts (company_name industry : string)
    (research_insights : PyDict (list (PyDict string)))
    (st st1 : State) (e : exn) (w : World) :
  truthy company_name = true ->
  research_company company_name st = (Ok (research_insights, industry), st1) ->
  assistant_generate_reply "use_case_generator"
    (use_case_prompt company_name industry research_insights) (world st1)
  = (Raise e, w) ->
  fst (generate_use_cases company_name industry research_insights st1) = Raise e /\
  fst (main_generate_analysis company_name st) = Raise e /\
  searches (snd (main_generate_analysis company_name st)) = searches st1 /\
  ui (snd (main_generate_analysis company_name st))
  = (ui st1 ++ [StSidebarSuccess ("Industry Identified: " ++ industry)])%list /\
  files (snd (main_generate_analysis company_name st)) = files st.
Proof.
  intros Hname Hresearch Hreply.
  pose proof (research_company_frame company_name st) as Hfiles.
  rewrite Hresearch in Hfiles. simpl in Hfiles.
  assert (Hmain :
            main_generate_analysis company_name st =
            (Raise e,
             {| world := w; searches := searches st1;
                replies := (replies st1
                            ++ [{| rc_agent := "use_case_generator";
                                   rc_content :=
                                     use_case_prompt company_name industry research_insights;
                                   rc_outcome := Raise e |}])%list;
                ui := (ui st1
                       ++ [StSidebarSuccess ("Industry Identified: " ++ industry)])%list;
                files := files st1 |})).
  { unfold main_generate_analysis. rewrite Hname.
    unfold bind. rewrite Hresearch.
    unfold show, generate_use_cases, bind, generate_reply.
    cbn [fst snd world]. now rewrite Hreply. }
  rewrite Hmain. cbn [fst snd searches ui files].
  split; [ | auto].
  unfold generate_use_cases, bind, generate_reply. now rewrite Hreply.
Qed.

End Run.

(** * Scenarios on the scripted world *)

(** ** The assembler and the clock *)

(** C1, refuted as stated: the same five arguments give two different
    documents on two different days; the caller has no timestamp to pass. *)
Lemma assembler_reads_the_clock :
  fst (@generate_final_proposal scripted "Acme" "Robotics" [] [] []
         (scripted_state [] [] nov_3_2026))
  = Ok ("# AI Strategy Analysis for Acme" ++ nl ++ nl
        ++ "## Industry: Robotics" ++ nl ++ nl
        ++ "*Generated on November 03, 2026*" ++ nl ++ nl
        ++ "## Market Research Insights" ++ nl
        ++ "## Recommended AI/ML Use Cases" ++ nl ++ nl) /\
  fst (@generate_final_proposal scripted "Acme" "Robotics" [] [] []
         (scripted_state [] [] nov_4_2026))
  = Ok ("# AI Strategy Analysis for Acme" ++ nl ++ nl
        ++ "## Industry: Robotics" ++ nl ++ nl
        ++ "*Generated on November 04, 2026*" ++ nl ++ nl
        ++ "## Market Research Insights" ++ nl
        ++ "## Recommended AI/ML Use Cases" ++ nl ++ nl) /\
  fst (@generate_final_proposal scripted "Acme" "Robotics" [] [] []
         (scripted_state [] [] nov_3_2026))
  <> fst (@generate_final_proposal scripted "Acme" "Robotics" [] [] []
            (scripted_state [] [] nov_4_2026)).
Proof.
  split; [vm_compute; reflexivity | ].
  split; [vm_compute; reflexivity | ].
  vm_compute. discriminate.
Qed.

Lemma final_proposal_same_date_witness :
  fst (@generate_final_proposal scripted "Acme" "Robotics" ["Route planning"] [] []
         (scripted_state [] [] nov_3_2026))
  = fst (@generate_final_proposal scripted "Acme" "Robotics" ["Route planning"] [] []
           (scripted_state [] [] nov_3_2026_evening)).
Proof.
  exact (proj1 (@final_proposal_same_date scripted "Acme" "Robotics" ["Route planning"]
                  [] [] (scripted_state [] [] nov_3_2026)
                  (scripted_state [] [] nov_3_2026_evening) eq_refl eq_refl eq_refl)).
Defined.

(** ** The classifier *)

(** C2, refuted as stated: the model returns the empty text and the
    classifier returns the empty label; [research_company] goes on and
    searches with it. *)
Lemma empty_reply_is_a_label :
  fst (@determine_industry scripted "Acme Robotics"
         (scripted_state [] [Ok (ReplyStr EmptyString)] nov_3_2026))
  = Ok EmptyString /\
  fst (@research_company scripted "Acme Robotics"
         (scripted_state [Ok []; Ok []; Ok []] [Ok (ReplyStr EmptyString)] nov_3_2026))
  = Ok ([(" industry overview and trends", []);
         ("Acme Robotics strategic focus and market position", []);
         (" technological innovations and future outlook", [])],
        EmptyString).
Proof. split; vm_compute; reflexivity. Qed.

Lemma classification_failure_policy_witness :
  fst (@determine_industry scripted "Acme Robotics"
         (scripted_state [Ok []] [Raise outage] nov_3_2026)) = Raise outage /\
  fst (@research_company scripted "Acme Robotics"
         (scripted_state [Ok []] [Raise outage] nov_3_2026)) = Raise outage /\
  searches (snd (@research_company scripted "Acme Robotics"
                   (scripted_state [Ok []] [Raise outage] nov_3_2026))) = [].
Proof.
  exact (proj1 (@classification_failure_policy scripted "Acme Robotics"
                  (scripted_state [Ok []] [Raise outage] nov_3_2026))
           outage
           {| search_script := [Ok []]; reply_script := []; clock := nov_3_2026 |}
           eq_refl).
Defined.

(** ** The publication date *)

(** C3, at the failing input: the search service supplies the date
    2024-05-01 with its result; the entry that [research_company] stores
    has no ['published_date'] key, and the report built from it shows the
    title without a date.  Given an insight that does carry the key,
    [generate_final_proposal] puts the date after the title. *)
Theorem published_date_dropped :
  fst (@research_company scripted "Acme"
         (scripted_state
            [Ok [hit "Robots at work" "https://example.com/robots" "Robots are here."
                     (Some "2024-05-01")];
             Raise outage; Raise outage]
            [Ok (ReplyStr "Robotics")] nov_3_2026))
  = Ok ([("Robotics industry overview and trends",
          [[("title", "Robots at work"); ("url", "https://example.com/robots");
            ("snippet", "Robots are here.")]])],
        "Robotics") /\
  fst (@generate_final_proposal scripted "Acme" "Robotics" [] []
         [("Robotics industry overview and trends",
           [[("title", "Robots at work"); ("url", "https://example.com/robots");
             ("snippet", "Robots are here.")]])]
         (scripted_state [] [] nov_3_2026))
  = Ok ("# AI Strategy Analysis for Acme" ++ nl ++ nl
        ++ "## Industry: Robotics" ++ nl ++ nl
        ++ "*Generated on November 03, 2026*" ++ nl ++ nl
        ++ "## Market Research Insights" ++ nl
        ++ "### Robotics Industry Overview And Trends" ++ nl ++ nl
        ++ "#### Robots at work" ++ nl ++ nl
        ++ "Robots are here." ++ nl ++ nl
        ++ "[Read more](https://example.com/robots)" ++ nl ++ nl
        ++ "---" ++ nl ++ nl
        ++ "## Recommended AI/ML Use Cases" ++ nl ++ nl) /\
  (forall res, dict_get "published_date" (insight_of res) = None) /\
  fst (@generate_final_proposal scripted "Acme" "Robotics" [] []
         [("Robotics industry overview and trends",
           [[("title", "Robots at work"); ("url", "https://example.com/robots");
             ("snippet", "Robots are here."); ("published_date", "2024-05-01")]])]
         (scripted_state [] [] nov_3_2026))
  = Ok ("# AI Strategy Analysis for Acme" ++ nl ++ nl
        ++ "## Industry: Robotics" ++ nl ++ nl
        ++ "*Generated on November 03, 2026*" ++ nl ++ nl
        ++ "## Market Research Insights" ++ nl
        ++ "### Robotics Industry Overview And Trends" ++ nl ++ nl
        ++ "#### Robots at work (2024-05-01)" ++ nl ++ nl
        ++ "Robots are here." ++ nl ++ nl
        ++ "[Read more](https://example.com/robots)" ++ nl ++ nl
        ++ "---" ++ nl ++ nl
        ++ "## Recommended AI/ML Use Cases" ++ nl ++ nl).
Proof.
  split; [vm_compute; reflexivity | ].
  split; [vm_compute; reflexivity | ].
  split; [reflexivity | vm_compute; reflexivity].
Qed.

(** What the assembler does with the key, for any insight: the date in
    brackets when the key is there and its value is not ['N/A'], nothing
    otherwise. *)
Lemma date_str_cases (insight : PyDict string) :
  match dict_get "published_date" insight with
  | Some d => if String.eqb d "N/A" then date_str insight = EmptyString
              else date_str insight = " (" ++ d ++ ")"
  | None => date_str insight = EmptyString
  end.
Proof.
  unfold date_str, dict_in, dict_get_default.
  destruct (dict_get "published_date" insight) as [d|]; [ | reflexivity].
  now destruct (String.eqb d "N/A").
Qed.

(** ** The research stage *)

Lemma research_partial_failure_witness :
  exists m st',
    @research_company scripted "Acme Robotics"
      (scripted_state
         [Ok [hit "Robots at work" "https://example.com/robots" "Robots are here." None];
          Raise outage; Ok []]
         [Ok (ReplyStr " Industrial Robotics ")] nov_3_2026)
    = (Ok (m, "Industrial Robotics"), st') /\
    length m = 2 /\
    dict_get "Acme Robotics strategic focus and market position" m = None /\
    exists body, ui st' = [StError body].
Proof.
  destruct (@research_partial_failure scripted "Acme Robotics" "Industrial Robotics"
              (scripted_state
                 [Ok [hit "Robots at work" "https://example.com/robots" "Robots are here." None];
                  Raise outage; Ok []]
                 [Ok (ReplyStr " Industrial Robotics ")] nov_3_2026)
              _ eq_refl)
    as [o1 [o2 [o3 [m [st' [Ho [Hrun [_ [_ [Hget [_ [_ Hone]]]]]]]]]]]].
  vm_compute in Ho. injection Ho as <- <- <-.
  exists m, st'. split; [exact Hrun | ].
  destruct (Hone eq_refl) as [Hlen Hui].
  split; [exact Hlen | ].
  split; [ | exact Hui].
  exact (Hget "Acme Robotics strategic focus and market position" (Raise outage)
           (or_intror (or_introl eq_refl))).
Defined.

Lemma research_queries_issued_witness :
  exists calls,
    searches (snd (@research_company scripted "Acme Robotics"
                     (scripted_state [] [Ok (ReplyStr "Industrial Robotics")] nov_3_2026)))
    = calls /\
    map sc_query calls
    = [ "Industrial Robotics industry overview and trends";
        "Acme Robotics strategic focus and market position";
        "Industrial Robotics technological innovations and future outlook" ].
Proof.
  destruct (proj2 (@research_queries_issued scripted) "Acme Robotics" "Industrial Robotics"
              (scripted_state [] [Ok (ReplyStr "Industrial Robotics")] nov_3_2026)
              _ eq_refl)
    as [m [st' [calls [Hrun [Hs [Hq _]]]]]].
  exists calls. rewrite Hrun. split; [exact Hs | exact Hq].
Defined.

(** ** The use-case parser *)

(** C6, refuted as stated: the empty reply holds no marker, and it
    parses to no use case at all, not to the one-element list of the
    trimmed reply. *)
Lemma blank_reply_parses_to_nothing :
  ~ has_marker EmptyString /\
  parse_use_cases EmptyString = [] /\
  parse_use_cases EmptyString <> [strip EmptyString].
Proof.
  split; [intros H; apply has_marker_find in H; discriminate H | ].
  split; [reflexivity | discriminate].
Qed.

Lemma parse_use_cases_spec_witness :
  parse_use_cases "  A single unified recommendation engine. "
  = ["A single unified recommendation engine."].
Proof.
  apply (proj1 (proj2 (proj2 (proj2 parse_use_cases_spec)))
           "  A single unified recommendation engine. ").
  - intros H. apply has_marker_find in H. discriminate H.
  - intros H. discriminate H.
Defined.

(** The numbered reply of the specification, read as segments. *)
Example numbered_reply_segments :
  Segments "1. Improve routing. 2. Predict churn."
           [EmptyString; " Improve routing. "; " Predict churn."].
Proof.
  assert (Hfree : forall s, find_marker s = false -> ~ has_marker s).
  { intros s Hs H. apply has_marker_find in H. congruence. }
  assert (Hend : forall s, match last_char s with
                           | Some c => is_digit c = false
                           | None => True
                           end -> ~ ends_with_digit s).
  { intros s Hs [pre [c [Hc ->]]].
    rewrite last_char_append in Hs by discriminate. simpl in Hs. congruence. }
  apply (Segments_more EmptyString "1." " Improve routing. 2. Predict churn.").
  - now apply Hfree.
  - now apply Hend.
  - exists "1". repeat split. discriminate.
  - apply (Segments_more " Improve routing. " "2." " Predict churn.").
    + now apply Hfree.
    + now apply Hend.
    + exists "2". repeat split. discriminate.
    + apply Segments_last. now apply Hfree.
Qed.

(** ** The run *)

Lemma generation_failure_aborts_witness :
  fst (@main_generate_analysis scripted "Acme"
         (scripted_state [Ok []; Ok []; Ok []]
            [Ok (ReplyStr "Robotics"); Raise outage] nov_3_2026))
  = Raise outage /\
  files (snd (@main_generate_analysis scripted "Acme"
                (scripted_state [Ok []; Ok []; Ok []]
                   [Ok (ReplyStr "Robotics"); Raise outage] nov_3_2026)))
  = [].
Proof.
  destruct (@generation_failure_aborts scripted "Acme" "Robotics"
              [("Robotics industry overview and trends", []);
               ("Acme strategic focus and market position", []);
               ("Robotics technological innovations and future outlook", [])]
              (scripted_state [Ok []; Ok []; Ok []]
                 [Ok (ReplyStr "Robotics"); Raise outage] nov_3_2026)
              (snd (@research_company scripted "Acme"
                      (scripted_state [Ok []; Ok []; Ok []]
                         [Ok (ReplyStr "Robotics"); Raise outage] nov_3_2026)))
              outage
              {| search_script := []; reply_script := []; clock := nov_3_2026 |}
              eq_refl eq_refl eq_refl)
    as [_ [Hmain [_ [_ Hfiles]]]].
  split; [exact Hmain | exact Hfiles].
Defined.

(** A run that succeeds, for comparison: the report is shown and written. *)
Example analysis_succeeds :
  fst (@main_generate_analysis scripted "Acme"
         (scripted_state [] [Ok (ReplyStr "Robotics"); Ok (ReplyStr "1. Plan routes.")]
            nov_3_2026))
  = Ok tt /\
  dict_get "ai_strategy_proposal.md"
    (files (snd (@main_generate_analysis scripted "Acme"
                   (scripted_state [] [Ok (ReplyStr "Robotics"); Ok (ReplyStr "1. Plan routes.")]
                      nov_3_2026))))
  = Some ("# AI Strategy Analysis for Acme" ++ nl ++ nl
          ++ "## Industry: Robotics" ++ nl ++ nl
          ++ "*Generated on November 03, 2026*" ++ nl ++ nl
          ++ "## Market Research Insights" ++ nl
          ++ "## Recommended AI/ML Use Cases" ++ nl ++ nl
          ++ "### Use Case 1: Plan routes." ++ nl ++ nl ++ nl).
Proof. split; vm_compute; reflexivity. Qed.

(** ** The resource collector *)

(** Two kaggle results and two huggingface results pass the filter: the
    use case keeps the two of kaggle and the first of huggingface.  The
    notebook is filtered out; the third search fails and leaves a
    warning. *)
Example resources_truncated_in_platform_order :
  @collect_resource_assets scripted ["route planning"]
    (scripted_state
       [Ok [hit "K1" "https://www.kaggle.com/datasets/a/routes" "s" None;
            hit "N" "https://www.kaggle.com/notebooks/a" "s" None;
            hit "K2" "https://www.kaggle.com/datasets/b/traffic" "s" None];
        Ok [hit "H1" "https://huggingface.co/datasets/c/roads" "s" None;
            hit "H2" "https://huggingface.co/datasets/d/maps" "s" None];
        Raise outage]
       [] nov_3_2026)
  = (Ok [("route planning",
          [[("url", "https://www.kaggle.com/datasets/a/routes"); ("title", "K1")];
           [("url", "https://www.kaggle.com/datasets/b/traffic"); ("title", "K2")];
           [("url", "https://huggingface.co/datasets/c/roads"); ("title", "H1")]])],
     @Build_State scripted
       {| search_script := []; reply_script := []; clock := nov_3_2026 |}
       [plain_call (resource_query "route planning" "kaggle.com/datasets")
          (Ok [hit "K1" "https://www.kaggle.com/datasets/a/routes" "s" None;
               hit "N" "https://www.kaggle.com/notebooks/a" "s" None;
               hit "K2" "https://www.kaggle.com/datasets/b/traffic" "s" None]);
        plain_call (resource_query "route planning" "huggingface.co/datasets")
          (Ok [hit "H1" "https://huggingface.co/datasets/c/roads" "s" None;
               hit "H2" "https://huggingface.co/datasets/d/maps" "s" None]);
        plain_call (resource_query "route planning" "github.com/datasets")
          (Raise outage)]
       []
       [StWarning "Resource collection error for 'route planning': service unavailable"]
       []).
Proof. vm_compute. reflexivity. Qed.

Lemma resource_map_keys_witness :
  exists m,
    fst (@collect_resource_assets scripted ["route planning"; "churn"]
           (scripted_state
              [Raise outage; Raise outage; Raise outage;
               Ok [hit "K1" "https://www.kaggle.com/datasets/a/churn" "s" None]]
              [] nov_3_2026)) = Ok m /\
    dict_keys m = ["route planning"; "churn"] /\
    dict_get "route planning" m = Some [].
Proof.
  destruct (@resource_map_keys scripted ["route planning"; "churn"]
              (scripted_state
                 [Raise outage; Raise outage; Raise outage;
                  Ok [hit "K1" "https://www.kaggle.com/datasets/a/churn" "s" None]]
                 [] nov_3_2026))
    as [m [st' [calls [Hrun [Hs [_ [_ [_ [Hfail _]]]]]]]]].
  rewrite Hrun. vm_compute in Hrun. injection Hrun as <- <-.
  vm_compute in Hs. subst calls.
  eexists. split; [reflexivity | ]. split; [reflexivity | ].
  apply Hfail; [now left | ].
  intros c Hin Hq.
  repeat (destruct Hin as [<-|Hin]; [try reflexivity | ]); try contradiction;
    vm_compute in Hq; repeat (destruct Hq as [Hq|Hq]; [discriminate Hq | ]);
    contradiction.
Defined.

Lemma resources_first_three_witness :
  exists m h1 h2 h3,
    fst (@collect_resource_assets scripted ["route planning"]
           (scripted_state
              [Ok [hit "K1" "https://www.kaggle.com/datasets/a/routes" "s" None;
                   hit "N" "https://www.kaggle.com/notebooks/a" "s" None;
                   hit "K2" "https://www.kaggle.com/datasets/b/traffic" "s" None];
               Ok [hit "H1" "https://huggingface.co/datasets/c/roads" "s" None;
                   hit "H2" "https://huggingface.co/datasets/d/maps" "s" None]]
              [] nov_3_2026)) = Ok m /\
    h1 = [hit "K1" "https://www.kaggle.com/datasets/a/routes" "s" None;
          hit "K2" "https://www.kaggle.com/datasets/b/traffic" "s" None] /\
    h2 = [hit "H1" "https://huggingface.co/datasets/c/roads" "s" None;
          hit "H2" "https://huggingface.co/datasets/d/maps" "s" None] /\
    h3 = [] /\
    dict_get "route planning" m
    = Some (firstn 3
              (map (fun res => [("url", hit_url res); ("title", hit_title res)])
                 (h1 ++ h2 ++ h3)%list)) /\
    dict_get "route planning" m
    = Some [[("url", "https://www.kaggle.com/datasets/a/routes"); ("title", "K1")];
            [("url", "https://www.kaggle.com/datasets/b/traffic"); ("title", "K2")];
            [("url", "https://huggingface.co/datasets/c/roads"); ("title", "H1")]].
Proof.
  destruct (@resources_first_three scripted ["route planning"]
              (scripted_state
                 [Ok [hit "K1" "https://www.kaggle.com/datasets/a/routes" "s" None;
                      hit "N" "https://www.kaggle.com/notebooks/a" "s" None;
                      hit "K2" "https://www.kaggle.com/datasets/b/traffic" "s" None];
                  Ok [hit "H1" "https://huggingface.co/datasets/c/roads" "s" None;
                      hit "H2" "https://huggingface.co/datasets/d/maps" "s" None]]
                 [] nov_3_2026))
    as [m [st' [Hrun Hval]]].
  rewrite Hrun. vm_compute in Hrun. injection Hrun as <- <-.
  destruct (Hval "route planning" _ eq_refl)
    as [_ [w [o1 [o2 [o3 [before [after [h1 [h2 [h3
         [_ [_ [Htrace [Hc1 [Hc2 [Hc3 Hv]]]]]]]]]]]]]]]].
  vm_compute in Htrace.
  assert (Hlen : length before + (3 + length after) = 3).
  { apply (f_equal (@length _)) in Htrace.
    rewrite length_app in Htrace. cbn [length] in Htrace. lia. }
  destruct before as [|b before]; [ | cbn [length] in Hlen; lia].
  cbn [app] in Htrace. injection Htrace; intros; subst.
  apply Selected_filter in Hc1. apply Selected_filter in Hc2.
  cbn [Contribution] in Hc3.
  vm_compute in Hc1. vm_compute in Hc2. subst h1 h2 h3.
  eexists _, _, _, _.
  split; [reflexivity | ]. split; [reflexivity | ].
  split; [reflexivity | ]. split; [reflexivity | ].
  split; reflexivity.
Defined.


(** * Further properties *)

(** ** Trimming *)

Lemma rstrip_cons (c : ascii) (s : string) :
  rstrip (String c s) =
  match rstrip s with
  | EmptyString => if is_space c then EmptyString else String c EmptyString
  | r => String c r
  end.
Proof. reflexivity. Qed.

Lemma rstrip_head (c : ascii) (s : string) :
  is_space c = false -> exists r, rstrip (String c s) = String c r.
Proof.
  intros Hc. rewrite rstrip_cons, Hc.
  destruct (rstrip s) as [|d r]; eexists; reflexivity.
Qed.

Lemma rstrip_last (s : string) :
  forall c, last_char (rstrip s) = Some c -> is_space c = false.
Proof.
  induction s as [|x s IH]; intros c; [discriminate | ].
  rewrite rstrip_cons. destruct (rstrip s) as [|d r] eqn:E.
  - destruct (is_space x) eqn:Hx; simpl; [discriminate | ].
    now intros [= <-].
  - intros H. apply IH. exact H.
Qed.

Lemma lstrip_head (s : string) :
  lstrip s = EmptyString \/
  exists c t, lstrip s = String c t /\ is_space c = false.
Proof.
  induction s as [|x s IH]; [now left | ].
  simpl. destruct (is_space x) eqn:Hx; [exact IH | ].
  right. now exists x, s.
Qed.

Lemma strip_trimmed (s : string) : trimmed (strip s).
Proof.
  unfold strip. split; [ | apply rstrip_last].
  intros c r H.
  destruct (lstrip_head s) as [E | [d [t [E Hd]]]]; rewrite E in H.
  - discriminate H.
  - destruct (rstrip_head d t Hd) as [r' Hr]. rewrite Hr in H. now injection H as <- _.
Qed.

Lemma lstrip_suffix (s : string) : exists pre, s = pre ++ lstrip s.
Proof.
  induction s as [|x s [pre IH]]; [now exists EmptyString | ].
  simpl. destruct (is_space x).
  - exists (String x pre). simpl. now rewrite <- IH.
  - now exists EmptyString.
Qed.

Lemma rstrip_prefix (s : string) : exists post, s = rstrip s ++ post.
Proof.
  induction s as [|x s [post IH]]; [now exists EmptyString | ].
  rewrite rstrip_cons. destruct (rstrip s) as [|d r].
  - destruct (is_space x).
    + exists (String x post). simpl. now rewrite IH at 1.
    + exists post. simpl. now rewrite IH at 1.
  - exists post. simpl. simpl in IH. now rewrite IH at 1.
Qed.

Lemma strip_Contains (s : string) : Contains (strip s) s.
Proof.
  unfold strip. destruct (lstrip_suffix s) as [pre Hpre].
  destruct (rstrip_prefix (lstrip s)) as [post Hpost].
  exists pre, post. now rewrite <- Hpost.
Qed.

Lemma has_marker_Contains (t s : string) :
  Contains t s -> has_marker t -> has_marker s.
Proof.
  intros [pre [post ->]] [p [m [q [Hm ->]]]].
  exists (pre ++ p), m, (q ++ post). split; [exact Hm | ].
  now rewrite !append_assoc.
Qed.

Lemma Segments_marker_free (s : string) (segs : list string) :
  Segments s segs -> Forall (fun seg => ~ has_marker seg) segs.
Proof. induction 1; constructor; auto. Qed.

Lemma parse_use_cases_clean (text u : string) :
  In u (parse_use_cases text) ->
  u <> EmptyString /\ trimmed u /\ ~ has_marker u.
Proof.
  unfold parse_use_cases. rewrite in_map_iff.
  intros [seg [<- Hin]]. apply filter_In in Hin as [Hin Hne].
  split; [now destruct (strip seg) | ].
  split; [apply strip_trimmed | ].
  destruct (segments_exist text) as [segs Hsegs].
  rewrite (re_split_marker_segments text segs Hsegs) in Hin.
  pose proof (Segments_marker_free text segs Hsegs) as Hfree.
  rewrite Forall_forall in Hfree.
  intros H. apply (Hfree seg Hin).
  exact (has_marker_Contains (strip seg) seg (strip_Contains seg) H).
Qed.

Section Replies.

Context {collab : Collaborators}.

(** X1.  Whatever the model writes, every use case that
    [generate_use_cases] returns is a non-empty text that neither starts
    nor ends with whitespace and holds no numbered-list marker: no run
    of digits followed by a period is left inside a use case. *)
Theorem use_cases_clean (company_name industry : string)
    (research_insights : PyDict (list (PyDict string)))
    (st st' : State) (use_cases : list string) :
  generate_use_cases company_name industry research_insights st = (Ok use_cases, st') ->
  forall u, In u use_cases -> u <> EmptyString /\ trimmed u /\ ~ has_marker u.
Proof.
  unfold generate_use_cases, bind, generate_reply, ret.
  destruct (assistant_generate_reply _ _ _) as [[r|e] w]; [ | discriminate].
  intros [= <- _] u. apply parse_use_cases_clean.
Qed.

(** X2.  The label [determine_industry] returns neither starts nor ends
    with whitespace, whatever the model replied. *)
Theorem industry_label_trimmed (company_name industry : string) (st st' : State) :
  determine_industry company_name st = (Ok industry, st') -> trimmed industry.
Proof.
  rewrite determine_industry_run.
  destruct (assistant_generate_reply _ _ _) as [[r|e] w]; [ | discriminate].
  intros [= <- _]. apply strip_trimmed.
Qed.

(** X3.  A model call that returns [None] is no failure: the classifier
    returns the label "None", [research_company] searches with it, and
    the generator returns the single use case "None". *)
Theorem none_reply_is_text (company_name : string) (st : State) :
  (forall w,
      assistant_generate_reply "industry_analyzer" (industry_prompt company_name)
        (world st) = (Ok ReplyNone, w) ->
      fst (determine_industry company_name st) = Ok "None" /\
      exists m, fst (research_company company_name st) = Ok (m, "None")) /\
  (forall industry research_insights w,
      assistant_generate_reply "use_case_generator"
        (use_case_prompt company_name industry research_insights) (world st)
      = (Ok ReplyNone, w) ->
      fst (generate_use_cases company_name industry research_insights st) = Ok ["None"]).
Proof.
  split.
  - intros w Hreply.
    assert (Hind : determine_industry company_name st
                   = (Ok "None", snd (determine_industry company_name st))).
    { rewrite determine_industry_run, Hreply. reflexivity. }
    split; [now rewrite Hind | ].
    destruct (research_company_ok company_name "None" st _ Hind)
      as [o1 [o2 [o3 [w' [_ Hrun]]]]].
    rewrite Hrun. eexists. reflexivity.
  - intros industry research_insights w Hreply.
    unfold generate_use_cases, bind, generate_reply. now rewrite Hreply.
Qed.

End Replies.

(** ** The layout of the report *)

Lemma forallb_numbered (g : string -> bool) (use_cases : list string) :
  forall start,
    forallb (fun numbered : nat * string => g (snd numbered))
      (combine (seq start (length use_cases)) use_cases)
    = forallb g use_cases.
Proof.
  induction use_cases as [|u us IH]; intros start; [reflexivity | ].
  simpl. now rewrite IH.
Qed.

Section Layout.

Context {collab : Collaborators}.

(** A loop that appends one block per element, or stops at the first
    element whose block needs a missing key. *)
Lemma for_each_render {A : Type} (xs : list A) (body : A -> string -> M string)
    (ok : A -> bool) (f : A -> string) (P : string -> Prop) :
  (forall x acc st,
      if ok x then body x acc st = (Ok (acc ++ f x), st)
      else exists k, P k /\ body x acc st = (Raise (KeyError k), st)) ->
  forall acc st,
    if forallb ok xs
    then for_each xs body acc st = (Ok (acc ++ join (map f xs)), st)
    else exists k, P k /\ for_each xs body acc st = (Raise (KeyError k), st).
Proof.
  intros Hbody. induction xs as [|x xs IH]; intros acc st.
  - simpl. unfold ret. now rewrite append_nil_r.
  - cbn [forallb for_each map join]. unfold bind.
    pose proof (Hbody x acc st) as Hx. destruct (ok x).
    + rewrite Hx. cbn [andb]. pose proof (IH (acc ++ f x) st) as Hxs.
      destruct (forallb ok xs).
      * rewrite Hxs. now rewrite append_assoc.
      * exact Hxs.
    + destruct Hx as [k [Hk Hx]]. exists k. now rewrite Hx.
Qed.

Lemma insight_block (insight : PyDict string) (acc : string) (st : State) :
  if insight_ok insight
  then (insight_title <- dict_item "title" insight ;;
        insight_snippet <- dict_item "snippet" insight ;;
        insight_url <- dict_item "url" insight ;;
        ret ((((acc ++ "#### " ++ insight_title ++ date_str insight ++ nl ++ nl)
               ++ insight_snippet ++ nl ++ nl)
              ++ "[Read more](" ++ insight_url ++ ")" ++ nl ++ nl)
             ++ "---" ++ nl ++ nl)) st
       = (Ok (acc ++ render_insight insight), st)
  else exists k, insight_keys k /\
       (insight_title <- dict_item "title" insight ;;
        insight_snippet <- dict_item "snippet" insight ;;
        insight_url <- dict_item "url" insight ;;
        ret ((((acc ++ "#### " ++ insight_title ++ date_str insight ++ nl ++ nl)
               ++ insight_snippet ++ nl ++ nl)
              ++ "[Read more](" ++ insight_url ++ ")" ++ nl ++ nl)
             ++ "---" ++ nl ++ nl)) st
       = (Raise (KeyError k), st).
Proof.
  unfold insight_ok, insight_keys, dict_in, render_insight, dict_get_default,
    dict_item, bind.
  destruct (dict_get "title" insight) as [t|]; cbn [andb];
    [ | exists "title"; split; [simpl; tauto | reflexivity]].
  unfold ret at 1.
  destruct (dict_get "snippet" insight) as [s|]; cbn [andb];
    [ | exists "snippet"; split; [simpl; tauto | reflexivity]].
  unfold ret at 1.
  destruct (dict_get "url" insight) as [u|];
    [ | exists "url"; split; [simpl; tauto | reflexivity]].
  unfold ret. rewrite !append_assoc. reflexivity.
Qed.

Lemma resource_block (resource : PyDict string) (acc : string) (st : State) :
  if resource_ok resource
  then (resource_title <- dict_item "title" resource ;;
        resource_url <- dict_item "url" resource ;;
        ret (acc ++ "- [" ++ resource_title ++ "](" ++ resource_url ++ ")" ++ nl)) st
       = (Ok (acc ++ render_resource resource), st)
  else exists k, insight_keys k /\
       (resource_title <- dict_item "title" resource ;;
        resource_url <- dict_item "url" resource ;;
        ret (acc ++ "- [" ++ resource_title ++ "](" ++ resource_url ++ ")" ++ nl)) st
       = (Raise (KeyError k), st).
Proof.
  unfold resource_ok, insight_keys, dict_in, render_resource, dict_get_default,
    dict_item, bind.
  destruct (dict_get "title" resource) as [t|]; cbn [andb];
    [ | exists "title"; split; [simpl; tauto | reflexivity]].
  unfold ret at 1.
  destruct (dict_get "url" resource) as [u|];
    [ | exists "url"; split; [simpl; tauto | reflexivity]].
  reflexivity.
Qed.

Lemma final_proposal_run (company_name industry : string) (use_cases : list string)
    (resource_map research_insights : PyDict (list (PyDict string))) (st : State) :
  if renderable use_cases resource_map research_insights
  then generate_final_proposal company_name industry use_cases resource_map
         research_insights st
       = (Ok (layout (strftime_B_d_Y (fst (datetime_now (world st)))) company_name
                industry use_cases resource_map research_insights),
          after_clock st)
  else exists k, insight_keys k /\
       generate_final_proposal company_name industry use_cases resource_map
         research_insights st
       = (Raise (KeyError k), after_clock st).
Proof.
  unfold generate_final_proposal, renderable, insights_ok. cbv zeta.
  rewrite bind_now.
  match goal with
  | |- context [for_each research_insights ?body ?acc] =>
      set (B1 := body); set (A1 := acc)
  end.
  match goal with
  | |- context [for_each (combine _ _) ?body] => set (B2 := body)
  end.
  assert (HB1 : forall item acc st0,
             if forallb insight_ok (snd item)
             then B1 item acc st0 = (Ok (acc ++ render_query item), st0)
             else exists k, insight_keys k /\ B1 item acc st0 = (Raise (KeyError k), st0)).
  { intros item acc st0. unfold B1, render_query.
    match goal with
    | |- context [for_each (snd item) ?body _ _] =>
        pose proof (for_each_render (snd item) body insight_ok render_insight
                      insight_keys (fun x a s => insight_block x a s)
                      (acc ++ "### " ++ title (fst item) ++ nl ++ nl) st0) as H
    end.
    destruct (forallb insight_ok (snd item)); [ | exact H].
    rewrite H. now rewrite !append_assoc. }
  assert (HB2 : forall numbered acc st0,
             if listing_ok resource_map (snd numbered)
             then B2 numbered acc st0
                  = (Ok (acc ++ render_use_case resource_map numbered), st0)
             else exists k, insight_keys k /\
                  B2 numbered acc st0 = (Raise (KeyError k), st0)).
  { intros [idx u] acc st0.
    unfold B2, listing_ok, render_use_case, render_datasets. cbn [fst snd].
    unfold bind at 1.
    destruct (dict_get u resource_map) as [[|r rs]|].
    - unfold ret. cbn [forallb]. now rewrite !append_assoc.
    - match goal with
      | |- context [for_each (r :: rs) ?body _ _] =>
          pose proof (for_each_render (r :: rs) body resource_ok render_resource
                        insight_keys (fun x a s => resource_block x a s)
                        ((acc ++ "### Use Case " ++ str_of_nat idx ++ ": " ++ u
                          ++ nl ++ nl)
                         ++ "#### Recommended Datasets:" ++ nl) st0) as H
      end.
      destruct (forallb resource_ok (r :: rs)).
      + rewrite H. unfold ret. now rewrite !append_assoc.
      + destruct H as [k [Hk H]]. exists k. unfold bind at 1. now rewrite H.
    - unfold ret. now rewrite !append_assoc. }
  pose proof (for_each_render research_insights B1
                (fun item => forallb insight_ok (snd item)) render_query insight_keys
                HB1 A1 (after_clock st)) as H1.
  unfold bind.
  destruct (forallb (fun item => forallb insight_ok (snd item)) research_insights);
    cbn [andb].
  - rewrite H1.
    pose proof (for_each_render (combine (seq 1 (length use_cases)) use_cases) B2
                  (fun numbered => listing_ok resource_map (snd numbered))
                  (render_use_case resource_map) insight_keys HB2
                  ((A1 ++ join (map render_query research_insights))
                   ++ "## Recommended AI/ML Use Cases" ++ nl ++ nl)
                  (after_clock st)) as H2.
    rewrite forallb_numbered in H2.
    destruct (forallb (listing_ok resource_map) use_cases); [ | exact H2].
    rewrite H2. unfold layout, A1. now rewrite !append_assoc.
  - destruct H1 as [k [Hk H1]]. exists k. now rewrite H1.
Qed.

(** X4.  When every insight has its ['title'], ['snippet'] and ['url']
    and every resource listed for a use case its ['title'] and ['url'],
    [generate_final_proposal] returns the report in a fixed layout: the
    title, the industry, the date, one block per research query in map
    order with one sub-block per result, then the use cases numbered from
    1 in list order, each with its datasets when its list is not empty. *)
Theorem final_proposal_layout (company_name industry : string)
    (use_cases : list string)
    (resource_map research_insights : PyDict (list (PyDict string))) (st : State) :
  renderable use_cases resource_map research_insights = true ->
  fst (generate_final_proposal company_name industry use_cases resource_map
         research_insights st)
  = Ok (layout (strftime_B_d_Y (fst (datetime_now (world st)))) company_name industry
          use_cases resource_map research_insights).
Proof.
  intros Hok.
  pose proof (final_proposal_run company_name industry use_cases resource_map
                research_insights st) as H.
  rewrite Hok in H. now rewrite H.
Qed.

(** X5.  When an insight lacks one of ['title'], ['snippet'], ['url'],
    or a resource listed for a use case lacks ['title'] or ['url'],
    [generate_final_proposal] returns no report: it raises [KeyError]
    for one of these keys. *)
Theorem final_proposal_key_error (company_name industry : string)
    (use_cases : list string)
    (resource_map research_insights : PyDict (list (PyDict string))) (st : State) :
  renderable use_cases resource_map research_insights = false ->
  exists k,
    In k ["title"; "snippet"; "url"] /\
    fst (generate_final_proposal company_name industry use_cases resource_map
           research_insights st)
    = Raise (KeyError k).
Proof.
  intros Hbad.
  pose proof (final_proposal_run company_name industry use_cases resource_map
                research_insights st) as H.
  rewrite Hbad in H. destruct H as [k [Hk H]].
  exists k. split; [exact Hk | now rewrite H].
Qed.

End Layout.

(** ** What the stages hand to the assembler *)

Lemma insight_of_ok (res : SearchHit) : insight_ok (insight_of res) = true.
Proof. reflexivity. Qed.

Lemma resource_of_ok (res : SearchHit) : resource_ok (resource_of res) = true.
Proof. reflexivity. Qed.

Lemma research_entry_ok (query : string) (o : outcome (list SearchHit)) :
  insights_ok (research_entry query o) = true.
Proof.
  destruct o as [results|e]; [ | reflexivity].
  unfold insights_ok. cbn [research_entry forallb snd]. rewrite andb_true_r.
  apply forallb_forall. intros x Hx. apply in_map_iff in Hx as [res [<- _]].
  apply insight_of_ok.
Qed.

Lemma yield_ok (platform : string) (o : outcome (list SearchHit)) :
  forallb resource_ok (yield platform o) = true.
Proof.
  destruct o as [results|e]; [ | reflexivity].
  apply forallb_forall. intros x Hx. unfold yield, platform_resources in Hx.
  apply in_map_iff in Hx as [res [<- _]]. apply resource_of_ok.
Qed.

Lemma accumulated_ok (os : list (outcome (list SearchHit))) :
  forallb resource_ok (accumulated os) = true.
Proof.
  unfold accumulated. induction (combine platforms os) as [|po l IH]; [reflexivity | ].
  cbn [flat_map]. now rewrite forallb_app, yield_ok, IH.
Qed.

Lemma forallb_firstn {A : Type} (f : A -> bool) (n : nat) (l : list A) :
  forallb f l = true -> forallb f (firstn n l) = true.
Proof.
  revert l. induction n as [|n IH]; intros [|x l]; simpl; try reflexivity.
  intros H. apply andb_true_iff in H as [Hx Hl]. now rewrite Hx, IH.
Qed.

Lemma listing_ok_set (m : PyDict (list (PyDict string))) (u k : string)
    (v : list (PyDict string)) :
  forallb resource_ok v = true ->
  listing_ok m k = true ->
  listing_ok (dict_set u v m) k = true.
Proof.
  intros Hv Hk. unfold listing_ok in *.
  destruct (string_dec k u) as [->|Hne].
  - now rewrite dict_get_set_same.
  - now rewrite dict_get_set_other.
Qed.

Section Stages.

Context {collab : Collaborators}.

Lemma research_company_insights_ok (company_name industry : string)
    (research_insights : PyDict (list (PyDict string))) (st st' : State) :
  research_company company_name st = (Ok (research_insights, industry), st') ->
  insights_ok research_insights = true.
Proof.
  intros Hrun.
  destruct (determine_industry company_name st) as [[ind|e] st1] eqn:Hind.
  - destruct (research_company_ok company_name ind st st1 Hind)
      as [o1 [o2 [o3 [w [_ Hok]]]]].
    rewrite Hok in Hrun. injection Hrun as <- _ _.
    unfold insights_ok. rewrite !forallb_app.
    now rewrite !(research_entry_ok _ _ : forallb _ _ = true).
  - rewrite research_company_run, Hind in Hrun. discriminate Hrun.
Qed.

Lemma resource_calls_queries (use_case : string) (os : list (outcome (list SearchHit))) :
  length os = 3 ->
  map sc_query (resource_calls use_case os) = map (resource_query use_case) platforms /\
  Forall (fun c => sc_num_results c = 3 /\ sc_type c = None) (resource_calls use_case os) /\
  forallb is_warning (resource_messages use_case os) = true /\
  length (resource_messages use_case os)
  = length (filter failed (map sc_outcome (resource_calls use_case os))).
Proof.
  destruct os as [|o1 [|o2 [|o3 [|o4 os]]]]; try discriminate. intros _.
  split; [reflexivity | ].
  split; [repeat constructor | ].
  split; destruct o1, o2, o3; reflexivity.
Qed.

(** The loop over the use cases with its whole effect: the searches it
    makes, the warnings it shows, and nothing else. *)
Lemma collect_loop_trace (use_cases : list string) :
  forall (m0 : PyDict (list (PyDict string))) (st : State),
  exists m w calls evs,
    for_each use_cases collect_use_case m0 st = (Ok m, after_searches calls evs w st) /\
    map sc_query calls = resource_queries use_cases /\
    Forall (fun c => sc_num_results c = 3 /\ sc_type c = None) calls /\
    forallb is_warning evs = true /\
    length evs = length (filter failed (map sc_outcome calls)) /\
    ((forall k, listing_ok m0 k = true) -> forall k, listing_ok m k = true).
Proof.
  induction use_cases as [|u us IH]; intros m0 st.
  - exists m0, (world st), [], []. simpl. unfold ret.
    rewrite after_searches_nil. repeat split; auto.
  - cbn [for_each]. unfold bind. rewrite collect_use_case_run.
    pose proof (run_searches_length (map (resource_query u) platforms) 3 None (world st))
      as Hlen.
    destruct (run_searches (map (resource_query u) platforms) 3 None (world st))
      as [os w1]. cbn [fst] in Hlen.
    destruct (resource_calls_queries u os Hlen) as [Hq [Hc [Hw Hn]]].
    destruct (IH (dict_set u (firstn 3 (accumulated os)) m0)
                 (after_searches (resource_calls u os) (resource_messages u os) w1 st))
      as [m [w [calls [evs [Hrun [Hq' [Hc' [Hw' [Hn' Hok]]]]]]]]].
    exists m, w, (resource_calls u os ++ calls)%list,
      (resource_messages u os ++ evs)%list.
    split; [now rewrite Hrun, after_searches_twice | ].
    split; [cbn [resource_queries flat_map]; now rewrite map_app, Hq, Hq' | ].
    split; [now apply Forall_app | ].
    split; [now rewrite forallb_app, Hw, Hw' | ].
    split; [now rewrite map_app, filter_app, !length_app, Hn, Hn' | ].
    intros H0. apply Hok. intros k. apply listing_ok_set; [ | apply H0].
    apply forallb_firstn, accumulated_ok.
Qed.

End Stages.


Section Completion.

Context {collab : Collaborators}.

Lemma collect_listing_ok (use_cases : list string)
    (resource_map : PyDict (list (PyDict string))) (st st' : State) :
  collect_resource_assets use_cases st = (Ok resource_map, st') ->
  forall k, listing_ok resource_map k = true.
Proof.
  unfold collect_resource_assets. intros Hrun.
  destruct (collect_loop_trace use_cases [] st)
    as [m [w [calls [evs [Hrun' [_ [_ [_ [_ Hok]]]]]]]]].
  rewrite Hrun' in Hrun. injection Hrun as <- _.
  apply Hok. reflexivity.
Qed.

(** X6.  Every warning of [collect_resource_assets] answers one failed
    search: for use cases u1, u2, ... the collector makes exactly the
    searches u1 on kaggle, huggingface, github, then u2 on the three, and
    so on, each for 3 results in the default mode; it shows one warning
    per failed search and nothing else, calls no model and writes no
    file. *)
Theorem collector_trace (use_cases : list string) (st : State) :
  exists m st' calls evs,
    collect_resource_assets use_cases st = (Ok m, st') /\
    searches st' = (searches st ++ calls)%list /\
    map sc_query calls = resource_queries use_cases /\
    Forall (fun c => sc_num_results c = 3 /\ sc_type c = None) calls /\
    ui st' = (ui st ++ evs)%list /\
    forallb is_warning evs = true /\
    length evs = length (filter failed (map sc_outcome calls)) /\
    replies st' = replies st /\
    files st' = files st.
Proof.
  unfold collect_resource_assets.
  destruct (collect_loop_trace use_cases [] st)
    as [m [w [calls [evs [Hrun [Hq [Hc [Hw [Hn _]]]]]]]]].
  exists m, (after_searches calls evs w st), calls, evs.
  repeat split; assumption || reflexivity.
Qed.

(** X7.  The maps the two search stages return always suit the
    assembler: with the research map of [research_company] and the
    resource map of [collect_resource_assets], [generate_final_proposal]
    returns a report for every company, industry, list of use cases and
    state; it cannot raise [KeyError]. *)
Theorem pipeline_data_renderable (company_name industry : string)
    (research_insights resource_map : PyDict (list (PyDict string)))
    (collected : list string) (st st1 st2 st3 : State) :
  research_company company_name st = (Ok (research_insights, industry), st1) ->
  collect_resource_assets collected st2 = (Ok resource_map, st3) ->
  forall (company industry' : string) (use_cases : list string) (st4 : State),
    fst (generate_final_proposal company industry' use_cases resource_map
           research_insights st4)
    = Ok (layout (strftime_B_d_Y (fst (datetime_now (world st4)))) company industry'
            use_cases resource_map research_insights).
Proof.
  intros Hresearch Hcollect company industry' use_cases st4.
  pose proof (final_proposal_run company industry' use_cases resource_map
                research_insights st4) as H.
  unfold renderable in H.
  rewrite (research_company_insights_ok _ _ _ _ _ Hresearch) in H.
  assert (Hl : forallb (listing_ok resource_map) use_cases = true).
  { apply forallb_forall. intros u _. exact (collect_listing_ok _ _ _ _ Hcollect u). }
  rewrite Hl in H. cbn [andb] in H. now rewrite H.
Qed.












End Completion.

(** ** Repeated use cases *)

Lemma filter_both {A : Type} (f g : A -> bool) (l : list A) :
  filter f (filter g l) = filter (fun x => g x && f x) l.
Proof.
  induction l as [|x l IH]; [reflexivity | ].
  simpl. destruct (g x); simpl; [ | exact IH]. destruct (f x); now rewrite IH.
Qed.

Lemma dict_in_set {V : Type} (u y : string) (v : V) (m : PyDict V) :
  dict_in y (dict_set u v m) = String.eqb u y || dict_in y m.
Proof.
  unfold dict_in. destruct (String.eqb_spec u y) as [->|Hne].
  - now rewrite dict_get_set_same.
  - rewrite dict_get_set_other by congruence. reflexivity.
Qed.

Lemma dict_keys_set_eq {V : Type} (k : string) (v : V) (d : PyDict V) :
  dict_keys (dict_set k v d)
  = if dict_in k d then dict_keys d else (dict_keys d ++ [k])%list.
Proof.
  unfold dict_in. induction d as [|[k0 v0] d IH]; [reflexivity | ].
  simpl. destruct (String.eqb k0 k) eqn:E; [reflexivity | ].
  simpl. rewrite IH. now destruct (dict_get k d).
Qed.

Lemma first_occurrences_length (l : list string) :
  length (first_occurrences l) <= length l.
Proof.
  induction l as [|x l IH]; [reflexivity | ].
  simpl. pose proof (filter_length_le (fun y => negb (String.eqb x y))
                       (first_occurrences l)). lia.
Qed.

Section Repeats.

Context {collab : Collaborators}.

Lemma for_each_app {A B : Type} (xs ys : list A) (body : A -> B -> M B) :
  forall acc st,
    for_each (xs ++ ys) body acc st
    = bind (for_each xs body acc) (for_each ys body) st.
Proof.
  induction xs as [|x xs IH]; intros acc st; [reflexivity | ].
  cbn [app for_each]. unfold bind.
  destruct (body x acc st) as [[a|e] st1]; [ | reflexivity].
  rewrite IH. reflexivity.
Qed.

(** The keys after the loop: the old ones, then the new texts in the
    order of their first occurrence. *)
Lemma collect_loop_keys (use_cases : list string) :
  forall (m0 m : PyDict (list (PyDict string))) (st st' : State),
    for_each use_cases collect_use_case m0 st = (Ok m, st') ->
    dict_keys m
    = (dict_keys m0
       ++ filter (fun y => negb (dict_in y m0)) (first_occurrences use_cases))%list.
Proof.
  induction use_cases as [|u us IH]; intros m0 m st st' Hrun.
  - injection Hrun as <- _. simpl. now rewrite app_nil_r.
  - cbn [for_each] in Hrun. unfold bind in Hrun.
    rewrite collect_use_case_run in Hrun.
    destruct (run_searches _ 3 None (world st)) as [os w].
    rewrite (IH _ _ _ _ Hrun), dict_keys_set_eq.
    cbn [first_occurrences filter].
    rewrite filter_both.
    destruct (dict_in u m0) eqn:Hu; cbn [negb].
    + f_equal. apply filter_ext. intros y. rewrite dict_in_set.
      destruct (String.eqb_spec u y) as [<-|_]; [now rewrite Hu | reflexivity].
    + rewrite <- app_assoc. cbn [app]. do 2 f_equal.
      apply filter_ext. intros y. rewrite dict_in_set.
      now destruct (String.eqb u y), (dict_in y m0).
Qed.

Lemma collect_loop_values (P : list (PyDict string) -> Prop) (use_cases : list string) :
  (forall l, P (firstn 3 l)) ->
  forall (m0 m : PyDict (list (PyDict string))) (st st' : State),
    for_each use_cases collect_use_case m0 st = (Ok m, st') ->
    Forall (fun kv => P (snd kv)) m0 -> Forall (fun kv => P (snd kv)) m.
Proof.
  intros HP. induction use_cases as [|u us IH]; intros m0 m st st' Hrun H0.
  - now injection Hrun as <- _.
  - cbn [for_each] in Hrun. unfold bind in Hrun.
    rewrite collect_use_case_run in Hrun.
    destruct (run_searches _ 3 None (world st)) as [os w].
    apply (IH _ _ _ _ Hrun). clear Hrun IH.
    induction m0 as [|[k0 v0] m0 IHm]; simpl.
    + repeat constructor. apply HP.
    + inversion H0; subst. destruct (String.eqb k0 u); constructor; auto. apply HP.
Qed.

(** X9.  A use case that comes again overwrites its entry: after
    [use_cases ++ [u]] the map binds [u] to the first three resources of
    the searches made for this last occurrence, whether [u] occurred
    before or not, and leaves every other entry as the run over
    [use_cases] had it. *)
Theorem last_occurrence_wins (use_cases : list string) (u : string) (st : State) :
  exists m st1 m' st2,
    collect_resource_assets use_cases st = (Ok m, st1) /\
    collect_resource_assets (use_cases ++ [u]) st = (Ok m', st2) /\
    dict_get u m' = Some (firstn 3 (accumulated (platform_outcomes u (world st1)))) /\
    forall k, k <> u -> dict_get k m' = dict_get k m.
Proof.
  unfold collect_resource_assets.
  destruct (collect_loop_trace use_cases [] st)
    as [m [w [calls [evs [Hrun _]]]]].
  set (st1 := after_searches calls evs w st) in *.
  pose proof (collect_use_case_run u m st1) as Hu.
  destruct (run_searches (map (resource_query u) platforms) 3 None (world st1))
    as [os w'] eqn:Eos.
  assert (Hos : platform_outcomes u (world st1) = os)
    by (unfold platform_outcomes; now rewrite Eos).
  exists m, st1, (dict_set u (firstn 3 (accumulated os)) m),
    (after_searches (resource_calls u os) (resource_messages u os) w' st1).
  split; [exact Hrun | ].
  split.
  { rewrite for_each_app. unfold bind. rewrite Hrun.
    cbn [for_each]. unfold bind. now rewrite Hu. }
  split; [rewrite Hos; apply dict_get_set_same | ].
  intros k Hk. now apply dict_get_set_other.
Qed.

Lemma resource_keys_length (use_cases : list string)
    (resource_map : PyDict (list (PyDict string))) (st st' : State) :
  collect_resource_assets use_cases st = (Ok resource_map, st') ->
  dict_keys resource_map = first_occurrences use_cases /\
  length resource_map <= length use_cases.
Proof.
  unfold collect_resource_assets. intros Hrun.
  pose proof (collect_loop_keys use_cases [] resource_map st st' Hrun) as Hkeys.
  cbn [dict_keys map app dict_in dict_get negb] in Hkeys.
  rewrite filter_true in Hkeys. split; [exact Hkeys | ].
  rewrite <- (length_map fst). change (map fst resource_map) with (dict_keys resource_map).
  rewrite Hkeys. apply first_occurrences_length.
Qed.

(** X10.  The keys of the resource map stand in the order in which the
    use-case texts first occur in the list; the map has as many entries
    as there are distinct texts, never more than use cases. *)
Theorem resource_keys_order (use_cases : list string)
    (resource_map : PyDict (list (PyDict string))) (st st' : State) :
  collect_resource_assets use_cases st = (Ok resource_map, st') ->
  dict_keys resource_map = first_occurrences use_cases /\
  length resource_map = length (first_occurrences use_cases) /\
  length resource_map <= length use_cases.
Proof.
  intros Hrun.
  destruct (resource_keys_length use_cases resource_map st st' Hrun) as [Hkeys Hlen].
  split; [exact Hkeys | ]. split; [ | exact Hlen].
  rewrite <- Hkeys. unfold dict_keys. now rewrite length_map.
Qed.

End Repeats.

(** ** The figures of the dashboard *)

Lemma list_sum_bound {A : Type} (f : A -> nat) (b : nat) (l : list A) :
  Forall (fun x => f x <= b) l -> list_sum (map f l) <= b * length l.
Proof.
  induction 1 as [|x l Hx _ IH]; simpl; [lia | ]. lia.
Qed.

Section Dashboard.

Context {collab : Collaborators}.

(** X11.  After a run the dashboard never shows more than 3 research
    sources, and never more supporting resources than three times the
    number of use cases (three times the number of entries of the
    resource map). *)
Theorem dashboard_metrics_bounds (company_name industry : string)
    (research_insights resource_map : PyDict (list (PyDict string)))
    (use_cases : list string) (st st1 st2 st3 : State) :
  research_company company_name st = (Ok (research_insights, industry), st1) ->
  collect_resource_assets use_cases st2 = (Ok resource_map, st3) ->
  metric_research_sources research_insights <= 3 /\
  metric_supporting_resources resource_map <= 3 * length resource_map /\
  metric_supporting_resources resource_map
  <= 3 * metric_strategic_opportunities use_cases.
Proof.
  intros Hresearch Hcollect. split.
  - destruct (determine_industry company_name st) as [[ind|e] st'] eqn:Hind.
    + destruct (research_company_ok company_name ind st st' Hind)
        as [o1 [o2 [o3 [w [_ Hok]]]]].
      rewrite Hok in Hresearch. injection Hresearch as <- _ _.
      unfold metric_research_sources. destruct o1, o2, o3; simpl; lia.
    + rewrite research_company_run, Hind in Hresearch. discriminate Hresearch.
  - assert (Hsum : metric_supporting_resources resource_map <= 3 * length resource_map).
    { apply list_sum_bound.
      apply (collect_loop_values (fun v => length v <= 3) use_cases
               (fun l => firstn_le_length 3 l) [] resource_map st2 st3 Hcollect).
      constructor. }
    split; [exact Hsum | ].
    destruct (resource_keys_length use_cases resource_map st2 st3 Hcollect).
    unfold metric_strategic_opportunities. lia.
Qed.

(** X12.  The research map lists the queries that succeeded in the
    order of the templates: industry overview, company focus, industry
    outlook.  The report, which follows the map, keeps that order. *)
Theorem research_keys_in_template_order (company_name industry : string)
    (st st1 : State) :
  determine_industry company_name st = (Ok industry, st1) ->
  exists m st',
    research_company company_name st = (Ok (m, industry), st') /\
    dict_keys m
    = map fst
        (filter (fun qo => negb (failed (snd qo)))
           (combine (search_queries company_name industry)
              (research_outcomes company_name industry (world st1)))).
Proof.
  intros Hind.
  destruct (research_company_ok company_name industry st st1 Hind)
    as [o1 [o2 [o3 [w [Ho Hok]]]]].
  eexists _, _. split; [exact Hok | ].
  rewrite Ho. destruct o1, o2, o3; reflexivity.
Qed.

End Dashboard.

(** ** Headings and the serialized insights *)

Lemma to_lower_to_upper (c : ascii) : to_lower (to_upper c) = to_lower c.
Proof. destruct c as [[] [] [] [] [] [] [] []]; reflexivity. Qed.

Lemma to_lower_to_lower (c : ascii) : to_lower (to_lower c) = to_lower c.
Proof. destruct c as [[] [] [] [] [] [] [] []]; reflexivity. Qed.

(** X13.  The heading of a research section is the query with only the
    case of its letters changed: lower-cased, [query.title()] and
    [query] are the same text, of the same length. *)
Theorem title_changes_case_only (s : string) :
  lower (title s) = lower s /\ String.length (title s) = String.length s.
Proof.
  unfold title. generalize false.
  induction s as [|c s IH]; intros b; [now split | ].
  cbn [title_from].
  destruct (is_lower c); [ | destruct (is_upper c)];
    cbn [lower String.length];
    destruct (IH true) as [H1 H2]; destruct (IH false) as [H3 H4];
    rewrite ?H1, ?H2, ?H3, ?H4;
    (split; [ | reflexivity]); f_equal;
    destruct b; auto using to_lower_to_upper, to_lower_to_lower.
Qed.

Lemma printable_append (a b : string) :
  printable (a ++ b) = printable a && printable b.
Proof.
  induction a as [|c a IH]; [reflexivity | ].
  simpl. now rewrite IH, andb_assoc.
Qed.

Lemma json_escape_char_printable (c : ascii) : printable (json_escape_char c) = true.
Proof. destruct c as [[] [] [] [] [] [] [] []]; reflexivity. Qed.

Lemma json_escape_printable (s : string) : printable (json_escape s) = true.
Proof.
  induction s as [|c s IH]; [reflexivity | ].
  cbn [json_escape]. now rewrite printable_append, json_escape_char_printable, IH.
Qed.

Lemma json_str_printable (s : string) : printable (json_str s) = true.
Proof.
  unfold json_str. now rewrite !printable_append, json_escape_printable.
Qed.

Lemma join_comma_printable (items : list string) :
  forallb printable items = true -> printable (join_comma items) = true.
Proof.
  induction items as [|x [|y rest] IH]; [reflexivity | | ].
  - simpl. now rewrite andb_true_r.
  - intros H. cbn [forallb] in H. apply andb_true_iff in H as [Hx Hrest].
    cbn [join_comma]. rewrite !printable_append, Hx. cbn [andb].
    change (printable ", ") with true. cbn [andb]. apply IH. exact Hrest.
Qed.

Lemma json_list_printable {V : Type} (value : V -> string) (l : list V) :
  (forall v, printable (value v) = true) -> printable (json_list value l) = true.
Proof.
  intros Hv. unfold json_list. rewrite !printable_append.
  rewrite join_comma_printable; [reflexivity | ].
  apply forallb_forall. intros x Hx. apply in_map_iff in Hx as [v [<- _]]. apply Hv.
Qed.

Lemma json_dict_printable {V : Type} (value : V -> string) (d : PyDict V) :
  (forall v, printable (value v) = true) -> printable (json_dict value d) = true.
Proof.
  intros Hv. unfold json_dict. rewrite !printable_append.
  rewrite join_comma_printable; [reflexivity | ].
  apply forallb_forall. intros x Hx. apply in_map_iff in Hx as [kv [<- _]].
  now rewrite !printable_append, json_str_printable, Hv.
Qed.

(** X14.  Whatever the search results hold, the insights written into
    the use-case prompt are printable ASCII: [json.dumps] leaves no line
    break, control character or character above 126 in them. *)
Theorem json_dumps_printable (research_insights : PyDict (list (PyDict string))) :
  printable (json_dumps research_insights) = true.
Proof.
  unfold json_dumps. apply json_dict_printable. intros l.
  apply json_list_printable. intros d.
  apply json_dict_printable. apply json_str_printable.
Qed.

(** X15.  For the three platforms of the collector the token test
    rejects nothing: each platform text holds "dataset" itself, so a
    result is kept exactly when its URL contains the platform text. *)
Theorem token_test_redundant (platform : string) (res : SearchHit) :
  In platform platforms ->
  (keeps platform res = true <-> Contains platform (hit_url res)).
Proof.
  intros Hin. rewrite <- str_in_spec. unfold keeps.
  destruct (str_in platform (hit_url res)) eqn:E; [ | now split].
  cbn [andb existsb]. split; [reflexivity | intros _].
  apply orb_true_iff. left.
  apply str_in_spec. apply str_in_spec in E.
  apply Contains_trans with (b := lower platform); [ | now apply Contains_lower].
  apply str_in_spec.
  unfold platforms in Hin. simpl in Hin.
  destruct Hin as [<-|[<-|[<-|[]]]]; reflexivity.
Qed.

(** * Scenarios for the further properties *)

Lemma use_cases_clean_witness :
  "Predict churn." <> EmptyString /\ trimmed "Predict churn." /\
  ~ has_marker "Predict churn.".
Proof.
  exact (@use_cases_clean scripted "Acme" "Robotics" []
           (scripted_state [] [Ok (ReplyStr "1. Improve routing. 2. Predict churn.")]
              nov_3_2026)
           _ _ eq_refl "Predict churn." (or_intror (or_introl eq_refl))).
Defined.

Lemma industry_label_trimmed_witness : trimmed "Industrial Robotics".
Proof.
  exact (@industry_label_trimmed scripted "Acme Robotics" "Industrial Robotics"
           (scripted_state [] [Ok (ReplyStr "  Industrial Robotics ")] nov_3_2026)
           _ eq_refl).
Defined.

Lemma none_reply_is_text_witness :
  fst (@determine_industry scripted "Acme"
         (scripted_state [] [Ok ReplyNone] nov_3_2026)) = Ok "None" /\
  exists m, fst (@research_company scripted "Acme"
                   (scripted_state [] [Ok ReplyNone] nov_3_2026)) = Ok (m, "None").
Proof.
  exact (proj1 (@none_reply_is_text scripted "Acme"
                  (scripted_state [] [Ok ReplyNone] nov_3_2026))
           {| search_script := []; reply_script := []; clock := nov_3_2026 |} eq_refl).
Defined.

Lemma final_proposal_layout_witness :
  fst (@generate_final_proposal scripted "Acme" "Robotics" ["Plan routes."; "Predict churn."]
         [("Plan routes.", [[("url", "https://www.kaggle.com/datasets/a/routes");
                             ("title", "Routes")]])]
         [("Robotics industry overview and trends",
           [[("title", "Robots at work"); ("url", "https://example.com/robots");
             ("snippet", "Robots are here.")]])]
         (scripted_state [] [] nov_3_2026))
  = Ok ("# AI Strategy Analysis for Acme" ++ nl ++ nl
        ++ "## Industry: Robotics" ++ nl ++ nl
        ++ "*Generated on November 03, 2026*" ++ nl ++ nl
        ++ "## Market Research Insights" ++ nl
        ++ "### Robotics Industry Overview And Trends" ++ nl ++ nl
        ++ "#### Robots at work" ++ nl ++ nl
        ++ "Robots are here." ++ nl ++ nl
        ++ "[Read more](https://example.com/robots)" ++ nl ++ nl
        ++ "---" ++ nl ++ nl
        ++ "## Recommended AI/ML Use Cases" ++ nl ++ nl
        ++ "### Use Case 1: Plan routes." ++ nl ++ nl
        ++ "#### Recommended Datasets:" ++ nl
        ++ "- [Routes](https://www.kaggle.com/datasets/a/routes)" ++ nl
        ++ nl
        ++ "### Use Case 2: Predict churn." ++ nl ++ nl
        ++ nl).
Proof.
  exact (@final_proposal_layout scripted "Acme" "Robotics" ["Plan routes."; "Predict churn."]
           [("Plan routes.", [[("url", "https://www.kaggle.com/datasets/a/routes");
                               ("title", "Routes")]])]
           [("Robotics industry overview and trends",
             [[("title", "Robots at work"); ("url", "https://example.com/robots");
               ("snippet", "Robots are here.")]])]
           (scripted_state [] [] nov_3_2026) eq_refl).
Defined.

Lemma final_proposal_key_error_witness :
  exists k,
    In k ["title"; "snippet"; "url"] /\
    fst (@generate_final_proposal scripted "Acme" "Robotics" [] []
           [("Robotics industry overview and trends",
             [[("title", "Robots at work"); ("snippet", "Robots are here.")]])]
           (scripted_state [] [] nov_3_2026))
    = Raise (KeyError k).
Proof.
  exact (@final_proposal_key_error scripted "Acme" "Robotics" [] []
           [("Robotics industry overview and trends",
             [[("title", "Robots at work"); ("snippet", "Robots are here.")]])]
           (scripted_state [] [] nov_3_2026) eq_refl).
Defined.

Lemma token_test_redundant_witness :
  keeps "github.com/datasets" (hit "t" "https://github.com/datasets/x" "s" None) = true
  <-> Contains "github.com/datasets" "https://github.com/datasets/x".
Proof.
  exact (token_test_redundant "github.com/datasets"
           (hit "t" "https://github.com/datasets/x" "s" None)
           (or_intror (or_intror (or_introl eq_refl)))).
Defined.

Lemma pipeline_data_renderable_witness :
  exists doc,
    fst (@generate_final_proposal scripted "Acme" "Robotics" ["Plan routes."]
           [("Plan routes.",
             [[("url", "https://www.kaggle.com/datasets/a/routes"); ("title", "K1")]])]
           [("Robotics industry overview and trends",
             [[("title", "Robots at work"); ("url", "https://example.com/robots");
               ("snippet", "Robots are here.")]])]
           (scripted_state [] [] nov_3_2026))
    = Ok doc.
Proof.
  assert (Hresearch :
            @research_company scripted "Acme"
              (scripted_state
                 [Ok [hit "Robots at work" "https://example.com/robots" "Robots are here."
                        (Some "2024-05-01")]]
                 [Ok (ReplyStr "Robotics")] nov_3_2026)
            = (Ok ([("Robotics industry overview and trends",
                     [[("title", "Robots at work"); ("url", "https://example.com/robots");
                       ("snippet", "Robots are here.")]])],
                   "Robotics"),
               snd (@research_company scripted "Acme"
                      (scripted_state
                         [Ok [hit "Robots at work" "https://example.com/robots"
                                "Robots are here." (Some "2024-05-01")]]
                         [Ok (ReplyStr "Robotics")] nov_3_2026))))
    by (vm_compute; reflexivity).
  assert (Hcollect :
            @collect_resource_assets scripted ["Plan routes."]
              (scripted_state
                 [Ok [hit "K1" "https://www.kaggle.com/datasets/a/routes" "s" None]]
                 [] nov_3_2026)
            = (Ok [("Plan routes.",
                    [[("url", "https://www.kaggle.com/datasets/a/routes");
                      ("title", "K1")]])],
               snd (@collect_resource_assets scripted ["Plan routes."]
                      (scripted_state
                         [Ok [hit "K1" "https://www.kaggle.com/datasets/a/routes" "s" None]]
                         [] nov_3_2026))))
    by (vm_compute; reflexivity).
  eexists.
  exact (@pipeline_data_renderable scripted _ _ _ _ _ _ _ _ _ Hresearch Hcollect
           "Acme" "Robotics" ["Plan routes."] (scripted_state [] [] nov_3_2026)).
Defined.


Lemma resource_keys_order_witness :
  exists m,
    fst (@collect_resource_assets offline ["Plan routes."; "Predict churn."; "Plan routes."]
           (@initial offline tt)) = Ok m /\
    dict_keys m = ["Plan routes."; "Predict churn."] /\
    length m = 2.
Proof.
  assert (Hrun :
            @collect_resource_assets offline
              ["Plan routes."; "Predict churn."; "Plan routes."] (@initial offline tt)
            = (Ok [("Plan routes.", []); ("Predict churn.", [])],
               snd (@collect_resource_assets offline
                      ["Plan routes."; "Predict churn."; "Plan routes."]
                      (@initial offline tt))))
    by (vm_compute; reflexivity).
  destruct (@resource_keys_order offline _ _ _ _ Hrun) as [Hkeys [Hlen _]].
  exists [("Plan routes.", []); ("Predict churn.", [])].
  rewrite Hrun. split; [reflexivity | ]. split; [exact Hkeys | exact Hlen].
Defined.

Lemma dashboard_metrics_bounds_witness :
  metric_research_sources
    [("Acme strategic focus and market position", @nil (PyDict string))] <= 3 /\
  metric_supporting_resources
    [("Plan routes.",
      [[("url", "https://www.kaggle.com/datasets/a/routes"); ("title", "K1")]])]
  <= 3 * 1.
Proof.
  assert (Hresearch :
            @research_company scripted "Acme"
              (scripted_state [Raise outage; Ok []] [Ok (ReplyStr "Robotics")] nov_3_2026)
            = (Ok ([("Acme strategic focus and market position", [])], "Robotics"),
               snd (@research_company scripted "Acme"
                      (scripted_state [Raise outage; Ok []] [Ok (ReplyStr "Robotics")]
                         nov_3_2026))))
    by (vm_compute; reflexivity).
  assert (Hcollect :
            @collect_resource_assets scripted ["Plan routes."]
              (scripted_state
                 [Ok [hit "K1" "https://www.kaggle.com/datasets/a/routes" "s" None]]
                 [] nov_3_2026)
            = (Ok [("Plan routes.",
                    [[("url", "https://www.kaggle.com/datasets/a/routes");
                      ("title", "K1")]])],
               snd (@collect_resource_assets scripted ["Plan routes."]
                      (scripted_state
                         [Ok [hit "K1" "https://www.kaggle.com/datasets/a/routes" "s" None]]
                         [] nov_3_2026))))
    by (vm_compute; reflexivity).
  destruct (@dashboard_metrics_bounds scripted _ _ _ _ _ _ _ _ _ Hresearch Hcollect)
    as [Hsources [_ Hresources]].
  split; [exact Hsources | exact Hresources].
Defined.

Lemma research_keys_in_template_order_witness :
  exists m,
    fst (@research_company scripted "Acme"
           (scripted_state [Ok []; Raise outage; Ok []] [Ok (ReplyStr "Robotics")]
              nov_3_2026))
    = Ok (m, "Robotics") /\
    dict_keys m = ["Robotics industry overview and trends";
                   "Robotics technological innovations and future outlook"].
Proof.
  destruct (@research_keys_in_template_order scripted "Acme" "Robotics"
              (scripted_state [Ok []; Raise outage; Ok []] [Ok (ReplyStr "Robotics")]
                 nov_3_2026)
              _ eq_refl)
    as [m [st' [Hrun Hkeys]]].
  exists m. rewrite Hrun. split; [reflexivity | exact Hkeys].
Defined.

(** A decimal number in the reply is read as a marker: in the middle of
    a sentence it cuts the use case in two, at its start it is only
    removed. *)
Example decimal_number_splits :
  parse_use_cases "Cut costs by 3.5 percent" = ["Cut costs by"; "5 percent"] /\
  parse_use_cases "3.5 percent lower costs" = ["5 percent lower costs"].
Proof. split; reflexivity. Qed.

(** A run in which one research search and one resource search fail:
    what the page shows, in order. *)
Example result_page_shown :
  ui (snd (@main_generate_analysis scripted "Acme"
             (scripted_state
                [Ok [hit "Robots at work" "https://example.com/robots" "Robots are here."
                       None];
                 Raise outage; Ok [];
                 Ok [hit "K1" "https://www.kaggle.com/datasets/a/routes" "s" None];
                 Raise outage; Ok []]
                [Ok (ReplyStr "Robotics"); Ok (ReplyStr "1. Plan routes.")] nov_3_2026)))
  = [StError ("Research error for query 'Acme strategic focus and market position': "
              ++ "service unavailable");
     StSidebarSuccess "Industry Identified: Robotics";
     StWarning "Resource collection error for 'Plan routes.': service unavailable";
     StMarkdown "---";
     StMarkdown "## Analysis Results for Acme";
     StMarkdown "**Industry:** Robotics";
     StMarkdown "[Read full article](https://example.com/robots)";
     StMarkdown "---";
     StMarkdown "---";
     StMarkdown "### Opportunity 1";
     StMarkdown "Plan routes.";
     StMarkdown "- [K1](https://www.kaggle.com/datasets/a/routes)";
     StMarkdown
       ("# AI Strategy Analysis for Acme" ++ nl ++ nl
        ++ "## Industry: Robotics" ++ nl ++ nl
        ++ "*Generated on November 03, 2026*" ++ nl ++ nl
        ++ "## Market Research Insights" ++ nl
        ++ "### Robotics Industry Overview And Trends" ++ nl ++ nl
        ++ "#### Robots at work" ++ nl ++ nl
        ++ "Robots are here." ++ nl ++ nl
        ++ "[Read more](https://example.com/robots)" ++ nl ++ nl
        ++ "---" ++ nl ++ nl
        ++ "### Robotics Technological Innovations And Future Outlook" ++ nl ++ nl
        ++ "## Recommended AI/ML Use Cases" ++ nl ++ nl
        ++ "### Use Case 1: Plan routes." ++ nl ++ nl
        ++ "#### Recommended Datasets:" ++ nl
        ++ "- [K1](https://www.kaggle.com/datasets/a/routes)" ++ nl
        ++ nl)].
Proof. vm_compute. reflexivity. Qed.

(** X16.  [main] as written never reaches the analysis: it constructs
    the agent with the keyword [api_key], which [__init__(self)] does
    not take, so after the style sheet and the tag line it raises
    [TypeError]; whatever the rest of [main] would do, no search is
    made, no model is called and no file is written. *)
Theorem main_stops_at_agent :
  forall (collab : Collaborators) (rest : M unit) (st : State),
  exists text,
    fst (main rest st) = Raise (TypeError text) /\
    searches (snd (main rest st)) = searches st /\
    replies (snd (main rest st)) = replies st /\
    files (snd (main rest st)) = files st /\
    ui (snd (main rest st))
    = (ui st ++ [StMarkdown page_style;
                 StMarkdown "*AI-Powered Company Analysis Engine*"])%list.
Proof.
  intros collab rest st. eexists. unfold main, market_research_agent_init.
  unfold bind, show, raise. cbn [fst snd searches replies files ui].
  repeat split. now rewrite <- app_assoc.
Qed.
